(** * Force12 demand scheduler: allocation, reconciliation and reporting

    A shallow embedding of the control loop of the Force12 scheduler.

    - [Main] follows [main.go]: the [Demand] record with its methods
      [set], [get], [handle] and [update], the reporter
      [sendStateToAPI] and the polling loop of [main].
    - [Handler] follows the demand handler built on a map of tasks:
      [update] and [handleDemandChange].

    The collaborators behind Go interfaces ([demand.Input],
    [scheduler.Scheduler], the HTTP client and the clock) are type
    classes over a state type: a call takes the collaborator's state and
    returns its results with the next state.  Every function returns the
    events it emitted, in order: scheduler calls, log lines, pauses. *)

From Stdlib Require Import ZArith.
From stdpp Require Import base option list strings gmap.

Local Open Scope string_scope.
Local Open Scope list_scope.
Local Open Scope Z_scope.

(** ** Go's values *)

(** An [error] is [nil] ([None]) or carries its message. *)
Definition error : Type := option string.

(** [int] is 64 bits wide; arithmetic wraps around. *)
Definition int_bits : Z := 64.

Definition wrap (z : Z) : Z :=
  (z + 2 ^ (int_bits - 1)) mod 2 ^ int_bits - 2 ^ (int_bits - 1).

Definition is_int (z : Z) : Prop :=
  - 2 ^ (int_bits - 1) <= z < 2 ^ (int_bits - 1).

Definition int_sub (a b : Z) : Z := wrap (a - b).
Definition int_add (a b : Z) : Z := wrap (a + b).

(** [a != b] on [int]. *)
Definition int_ne (a b : Z) : bool := negb (a =? b).

(** What a function call comes to: it returns, or the goroutine panics
    (nothing in the program recovers, so the process dies). *)
Inductive outcome (A : Type) : Type :=
  | Returned (a : A)
  | Panicked.
Arguments Returned {A} a.
Arguments Panicked {A}.

(** [fmt.Errorf(prefix + "%v", err)]. *)
Definition Errorf (prefix : string) (cause : string) : error :=
  Some (prefix +:+ cause).

(** ** Collaborators *)

(** [demand.Input]: [GetDemand(name) (int, error)]. *)
Class Input (I : Type) : Type := {
  GetDemand : I -> string -> (Z * error) * I
}.

(** [clamp] as the specification writes it. *)
Definition clamp (x lo hi : Z) : Z := Z.max lo (Z.min x hi).

(** ** main.go *)

Module Main.

(** [scheduler.Scheduler] as [main.go] calls it. *)
Class Scheduler (Sch : Type) : Type := {
  InitScheduler : Sch -> string -> error * Sch;
  StopStartNTasks : Sch -> string -> string -> Z -> Z -> error * Sch;
  CountAllTasks : Sch -> (Z * Z * error) * Sch
}.

Record sendStatePayload : Type := {
  CreatedAt : Z;
  Priority1Requested : Z;
  Priority1Running : Z;
  Priority2Running : Z
}.

(** The request [sendStateToAPI] builds; the body is the payload that the
    JSON encoder serialises (four integers: encoding cannot fail). *)
Record Request : Type := {
  Method : string;
  URL : string;
  ContentType : string;
  Body : sendStatePayload
}.

Record Response : Type := {
  StatusCode : Z;
  Status : string
}.

(** The host of the process: the clock, URL parsing inside
    [http.NewRequest], and [http.DefaultClient.Do].  [Do] returns the
    response pointer ([None] is [nil]) and an error. *)
Class Host (H : Type) : Type := {
  Now_Unix : H -> Z * H;
  NewRequest_parse : string -> error;
  Do : H -> Request -> (option Response * error) * H
}.

Definition const_sleep : Z := 100.
Definition const_sendstate_sleeps : Z := 5.
Definition const_stopsleep : Z := 250.
Definition const_p1demandstart : Z := 5.
Definition const_p2demandstart : Z := 4.
Definition const_maxcontainers : Z := 9.

(** The package-level variables set by [main]. *)
Record Globals : Type := {
  p1TaskName : string;
  p2TaskName : string;
  p1FamilyName : string;
  p2FamilyName : string
}.

Inductive SchedCall : Type :=
  | CallInit (name : string) (result : error)
  | CallStopStart (name family : string) (demand requested : Z) (result : error)
  | CallCount (result : error).

Inductive LogMsg : Type :=
  | FailedStartPriority1 (e : string)
  | FailedStartPriority2 (e : string)
  | FailedGetNewDemand (e : string)
  | P1DemandChanged (old new : Z)
  | ApiPut (url : string)
  | BadDemandModel (v : string)
  | BadScheduler (v : string)
  | Announce (line : string)
  | FailedStartP1Task (e : string)
  | FailedStartP2Task (e : string)
  | FailedCountTasks (e : string)
  | FailedHandleDemandChange (e : string)
  | FailedSendState (e : string).

Inductive Event : Type :=
  | Call (c : SchedCall)
  | Log (m : LogMsg)
  | Sleep (ms : Z).

(** [if err != nil { log.Printf(..., err) }]. *)
Definition log_if (err : error) (m : string -> LogMsg) : list Event :=
  match err with
  | Some e => [Log (m e)]
  | None => []
  end.

Definition is_stopstart (ev : Event) : bool :=
  match ev with
  | Call (CallStopStart _ _ _ _ _) => true
  | _ => false
  end.

(** An event other than a [StopStartNTasks] call. *)
Definition quiet (ev : Event) : Prop := is_stopstart ev = false.

(** A [StopStartNTasks] call. *)
Definition loud (ev : Event) : Prop := is_stopstart ev = true.

(** The scheduler calls among the events, in order. *)
Definition calls_of (evs : list Event) : list SchedCall :=
  omap (fun ev => match ev with Call c => Some c | _ => None end) evs.

Section Program.
Context {Sch I H : Type} `{!Scheduler Sch, !Input I, !Host H}.

Record Demand : Type := {
  sched : Sch;
  input : I;
  p1demand : Z;
  p2demand : Z;
  p1requested : Z;
  p2requested : Z
}.

Definition with_sched (d : Demand) (s : Sch) : Demand :=
  {| sched := s; input := input d; p1demand := p1demand d;
     p2demand := p2demand d; p1requested := p1requested d;
     p2requested := p2requested d |}.

Definition with_input (d : Demand) (i : I) : Demand :=
  {| sched := sched d; input := i; p1demand := p1demand d;
     p2demand := p2demand d; p1requested := p1requested d;
     p2requested := p2requested d |}.

Definition with_p1demand (d : Demand) (v : Z) : Demand :=
  {| sched := sched d; input := input d; p1demand := v;
     p2demand := p2demand d; p1requested := p1requested d;
     p2requested := p2requested d |}.

Definition with_p2demand (d : Demand) (v : Z) : Demand :=
  {| sched := sched d; input := input d; p1demand := p1demand d;
     p2demand := v; p1requested := p1requested d;
     p2requested := p2requested d |}.

Definition with_requested (d : Demand) (r1 r2 : Z) : Demand :=
  {| sched := sched d; input := input d; p1demand := p1demand d;
     p2demand := p2demand d; p1requested := r1; p2requested := r2 |}.

(** [func (d *Demand) set(p1, p2 int) (int, int)]: returns the old
    values; a provided value of -1 leaves the field alone. *)
Definition set (d : Demand) (p1 p2 : Z) : (Z * Z) * Demand :=
  let p1old := p1demand d in
  let p2old := p2demand d in
  let d := if int_ne p2 (-1) then with_p2demand d p2 else d in
  let d := if int_ne p1 (-1) then with_p1demand d p1 else d in
  ((p1old, p2old), d).

Definition get (d : Demand) : Z * Z := (p1demand d, p2demand d).

(** [func (d *Demand) handle() error].  The result of the second
    [StopStartNTasks] call is dropped by the source; [err] still holds
    the first call's result at the second test and at the return. *)
Definition handle (g : Globals) (d : Demand) : error * Demand * list Event :=
  let '(err, s1) :=
    StopStartNTasks (sched d) (p1TaskName g) (p1FamilyName g)
                    (p1demand d) (p1requested d) in
  let c1 := Call (CallStopStart (p1TaskName g) (p1FamilyName g)
                                (p1demand d) (p1requested d) err) in
  let d1 := with_sched d s1 in
  let l1 := log_if err FailedStartPriority1 in
  let '(dropped, s2) :=
    StopStartNTasks (sched d1) (p2TaskName g) (p2FamilyName g)
                    (p2demand d1) (p2requested d1) in
  let c2 := Call (CallStopStart (p2TaskName g) (p2FamilyName g)
                                (p2demand d1) (p2requested d1) dropped) in
  let d2 := with_sched d1 s2 in
  let l2 := log_if err FailedStartPriority2 in
  (err, d2, c1 :: l1 ++ c2 :: l2).

(** [func (d *Demand) update() bool]. *)
Definition update (d : Demand) : bool * Demand * list Event :=
  let '((newP1Demand, err), i1) := GetDemand (input d) "priority1-demand" in
  let d := with_input d i1 in
  match err with
  | Some e => (false, d, [Log (FailedGetNewDemand e)])
  | None =>
      let newP2Demand := int_sub const_maxcontainers newP1Demand in
      let '((oldP1Demand, oldP2Demand), d) := set d newP1Demand newP2Demand in
      let demandchange :=
        int_ne newP1Demand oldP1Demand || int_ne newP2Demand oldP2Demand in
      (demandchange, d,
       if demandchange then [Log (P1DemandChanged oldP1Demand newP1Demand)]
       else [])
  end.

(** [os.Getenv], fixed for the life of the process: unset names read
    as the empty string. *)
Definition Environ : Type := string -> string.

Definition getBaseF12APIUrl (environ : Environ) : string :=
  let baseUrl := environ "API_ADDRESS" in
  if String.eqb baseUrl "" then "https://force12-windtunnel.herokuapp.com"
  else baseUrl.

Definition getEnvOrDefault (environ : Environ) (name defaultValue : string)
  : string :=
  let v := environ name in
  if String.eqb v "" then defaultValue else v.

(** [func sendStateToAPI(currentdemand *Demand) error].

    [defer resp.Body.Close()] stands before the test of [err]: it reads
    the field [Body] through [resp] when the statement runs, so a [nil]
    response panics there. *)
Definition sendStateToAPI (environ : Environ) (d : Demand) (h : H)
  : outcome error * Demand * H * list Event :=
  let '((count1, count2, err), s1) := CountAllTasks (sched d) in
  let d := with_sched d s1 in
  let c := Call (CallCount err) in
  match err with
  | Some e => (Returned (Errorf "Failed to get state err " e), d, h, [c])
  | None =>
      let url := getBaseF12APIUrl environ +:+ "/metrics/" +:+ "5k5gk" in
      let evs := [c; Log (ApiPut url)] in
      let '(now, h) := Now_Unix h in
      let payload :=
        {| CreatedAt := now; Priority1Requested := p1demand d;
           Priority1Running := count1; Priority2Running := count2 |} in
      match NewRequest_parse url with
      | Some e =>
          (Returned (Errorf "Failed to build API PUT request err " e), d, h, evs)
      | None =>
          let req :=
            {| Method := "PUT"; URL := url;
               ContentType := "application/json"; Body := payload |} in
          let '((resp, err), h) := Do h req in
          match resp with
          | None => (Panicked, d, h, evs)
          | Some r =>
              match err with
              | Some e => (Returned (Errorf "API state err " e), d, h, evs)
              | None =>
                  if StatusCode r >? 204
                  then (Returned (Errorf "error response from API. " (Status r)),
                        d, h, evs)
                  else (Returned err, d, h, evs)
              end
          end
      end
  end.

(** The constructors [main] picks from. *)
Record Backends : Type := {
  consul_NewDemandModel : I;
  rng_NewDemandModel : I;
  marathon_NewScheduler : Sch;
  compose_NewScheduler : Sch
}.

(** The variables of [main] that live across loop iterations. *)
Record Proc : Type := {
  globals : Globals;
  sendstate : string;
  currentdemand : Demand;
  host : H;
  demandchangeflag : bool;
  sleepcount : Z
}.

Definition with_flag (p : Proc) (b : bool) : Proc :=
  {| globals := globals p; sendstate := sendstate p;
     currentdemand := currentdemand p; host := host p;
     demandchangeflag := b; sleepcount := sleepcount p |}.

Definition with_demand (p : Proc) (d : Demand) : Proc :=
  {| globals := globals p; sendstate := sendstate p;
     currentdemand := d; host := host p;
     demandchangeflag := demandchangeflag p; sleepcount := sleepcount p |}.

Definition with_host (p : Proc) (h : H) : Proc :=
  {| globals := globals p; sendstate := sendstate p;
     currentdemand := currentdemand p; host := h;
     demandchangeflag := demandchangeflag p; sleepcount := sleepcount p |}.

Definition with_sleepcount (p : Proc) (n : Z) : Proc :=
  {| globals := globals p; sendstate := sendstate p;
     currentdemand := currentdemand p; host := host p;
     demandchangeflag := demandchangeflag p; sleepcount := n |}.

Definition pick_input (b : Backends) (demandModelType : string)
  : option I * list Event :=
  if String.eqb demandModelType "CONSUL"
  then (Some (consul_NewDemandModel b),
        [Log (Announce "Getting demand metric from Consul")])
  else if String.eqb demandModelType "RNG"
  then (Some (rng_NewDemandModel b), [Log (Announce "Random demand generation")])
  else (None, [Log (BadDemandModel demandModelType)]).

Definition pick_scheduler (b : Backends) (schedulerType : string)
  : option Sch * list Event :=
  if String.eqb schedulerType "MESOS"
  then (Some (marathon_NewScheduler b),
        [Log (Announce "Scheduling with Mesos / Marathon")])
  else if String.eqb schedulerType "COMPOSE"
  then (Some (compose_NewScheduler b),
        [Log (Announce "Scheduling with Docker compose")])
  else (None, [Log (BadScheduler schedulerType)]).

(** [main] up to the loop: [None] when [main] returns early.

    The source builds the record as [Demand{input: di}] and never reads
    [s], which the Go compiler rejects; every scheduler call goes
    through [currentdemand.sched], so the chosen scheduler is taken to
    be that field. *)
Definition main_start (environ : Environ) (b : Backends) (h : H)
  : option Proc * list Event :=
  let demandModelType := getEnvOrDefault environ "F12_DEMAND_MODEL" "RNG" in
  let schedulerType := getEnvOrDefault environ "F12_SCHEDULER" "COMPOSE" in
  let sendstate := getEnvOrDefault environ "F12_SEND_STATE_TO_API" "true" in
  let g :=
    {| p1TaskName := getEnvOrDefault environ "F12_PRIORITY1_TASK" "priority1-demand";
       p2TaskName := getEnvOrDefault environ "F12_PRIORITY2_TASK" "priority2-demand";
       p1FamilyName := environ "F12_PRIORITY1_FAMILY";
       p2FamilyName := environ "F12_PRIORITY2_FAMILY" |} in
  match pick_input b demandModelType with
  | (None, e1) => (None, e1)
  | (Some di, e1) =>
      match pick_scheduler b schedulerType with
      | (None, e2) => (None, e1 ++ e2)
      | (Some s, e2) =>
          let currentdemand :=
            {| sched := s; input := di; p1demand := 0; p2demand := 0;
               p1requested := 0; p2requested := 0 |} in
          let '(_, currentdemand) :=
            set currentdemand const_p1demandstart const_p2demandstart in
          let '(err, s1) := InitScheduler (sched currentdemand) (p1TaskName g) in
          let currentdemand := with_sched currentdemand s1 in
          let e3 := [Call (CallInit (p1TaskName g) err)] in
          match err with
          | Some e => (None, e1 ++ e2 ++ e3 ++ [Log (FailedStartP1Task e)])
          | None =>
              let '(err, s2) :=
                InitScheduler (sched currentdemand) (p2TaskName g) in
              let currentdemand := with_sched currentdemand s2 in
              let e4 := [Call (CallInit (p2TaskName g) err)] in
              match err with
              | Some e =>
                  (None, e1 ++ e2 ++ e3 ++ e4 ++ [Log (FailedStartP2Task e)])
              | None =>
                  let '(demandchangeflag, currentdemand, e5) :=
                    update currentdemand in
                  let demandchangeflag := true in
                  (Some {| globals := g; sendstate := sendstate;
                           currentdemand := currentdemand; host := h;
                           demandchangeflag := demandchangeflag;
                           sleepcount := 0 |},
                   e1 ++ e2 ++ e3 ++ e4 ++ e5)
              end
          end
      end
  end.

(** The loop body down to the end of [if demandchangeflag { ... }]. *)
Definition reconcile (p : Proc) : Proc * list Event :=
  let '(demandchangeflag, d, e1) := update (currentdemand p) in
  let p := with_flag (with_demand p d) demandchangeflag in
  if demandchangeflag then
    let '((r1, r2, err), s1) := CountAllTasks (sched d) in
    let d := with_requested (with_sched d s1) r1 r2 in
    let e2 := Call (CallCount err) :: log_if err FailedCountTasks in
    let '(err, d, e3) := handle (globals p) d in
    let e4 := log_if err FailedHandleDemandChange in
    (with_demand p d, e1 ++ e2 ++ e3 ++ e4)
  else (p, e1).

(** The rest of the loop body: the pause and the periodic report. *)
Definition report (environ : Environ) (p : Proc)
  : outcome Proc * list Event :=
  let e0 := [Sleep const_sleep] in
  let p := with_sleepcount p (int_add (sleepcount p) 1) in
  if sleepcount p =? const_sendstate_sleeps then
    let p := with_sleepcount p 0 in
    if String.eqb (sendstate p) "true" then
      let '(r, d, h, e1) := sendStateToAPI environ (currentdemand p) (host p) in
      match r with
      | Panicked => (Panicked, e0 ++ e1)
      | Returned err =>
          (Returned (with_host (with_demand p d) h),
           e0 ++ e1 ++ log_if err FailedSendState)
      end
    else (Returned p, e0)
  else (Returned p, e0).

Definition loop_body (environ : Environ) (p : Proc)
  : outcome Proc * list Event :=
  let '(p, e1) := reconcile p in
  let '(r, e2) := report environ p in
  (r, e1 ++ e2).

(** [n] iterations of [for { ... }]. *)
Fixpoint loop (environ : Environ) (n : nat) (p : Proc)
  : outcome Proc * list Event :=
  match n with
  | O => (Returned p, [])
  | S n' =>
      match loop_body environ p with
      | (Panicked, e) => (Panicked, e)
      | (Returned p', e) =>
          let '(r, e') := loop environ n' p' in (r, e ++ e')
      end
  end.

(** [main], its endless loop cut off after [n] iterations; the result is
    [None] when [main] returned before the loop. *)
Definition main (environ : Environ) (b : Backends) (h : H) (n : nat)
  : outcome (option Proc) * list Event :=
  match main_start environ b h with
  | (None, e0) => (Returned None, e0)
  | (Some p, e0) =>
      match loop environ n p with
      | (Returned p', e) => (Returned (Some p'), e0 ++ e)
      | (Panicked, e) => (Panicked, e0 ++ e)
      end
  end.


(** The log lines among the events, in order. *)
Definition logs_of (evs : list Event) : list LogMsg :=
  omap (fun ev => match ev with Log m => Some m | _ => None end) evs.

(** The pauses among the events, in order. *)
Definition sleeps_of (evs : list Event) : list Z :=
  omap (fun ev => match ev with Sleep ms => Some ms | _ => None end) evs.

(** A [StopStartNTasks] call asks for a demand within the capacity. *)
Definition within_capacity (ev : Event) : Prop :=
  match ev with
  | Call (CallStopStart _ _ demand _ _) => 0 <= demand <= const_maxcontainers
  | _ => True
  end.

(** The stored demands split the capacity between the two classes. *)
Definition allocated (d : Demand) : Prop :=
  p1demand d + p2demand d = const_maxcontainers /\
  0 <= p1demand d <= const_maxcontainers /\
  0 <= p2demand d <= const_maxcontainers.

(** Each of the next [n] samples of the demand source fails or answers
    within [lo, hi]. *)
Fixpoint answers_within (n : nat) (i : I) (lo hi : Z) : Prop :=
  match n with
  | O => True
  | S n' =>
      let r := GetDemand i "priority1-demand" in
      (r.1.2 <> None \/ lo <= r.1.1 <= hi) /\ answers_within n' r.2 lo hi
  end.

End Program.
End Main.

(** ** The demand handler over a map of tasks *)

Module Handler.

(** Modelled from the spec: the declaration of [demand.Task] is not among
    the sources, which only read and write its field [Demand].  The task
    class record of the specification has a name, a family and the three
    counts demand, requested and running. *)
Record Task : Type := {
  Name : string;
  FamilyName : string;
  Demand : Z;
  Requested : Z;
  Running : Z
}.

Definition with_Demand (t : Task) (v : Z) : Task :=
  {| Name := Name t; FamilyName := FamilyName t; Demand := v;
     Requested := Requested t; Running := Running t |}.

(** The zero value, which indexing a map yields for a missing key. *)
Definition zeroTask : Task :=
  {| Name := ""; FamilyName := ""; Demand := 0; Requested := 0; Running := 0 |}.

Definition index (ts : gmap string Task) (name : string) : Task :=
  default zeroTask (ts !! name).

(** [scheduler.Scheduler] as the handler calls it:
    [StopStartNTasks(name, &task, ready) (bool, error)].  The task comes
    back as the scheduler left it behind the pointer.  The channel
    [ready] is only handed on; what arrives on it later is outside the
    handler. *)
Class Scheduler (Sch : Type) : Type := {
  StopStartNTasks : Sch -> string -> Task -> (Task * bool * error) * Sch
}.

(** One [StopStartNTasks] call: its arguments, the value of
    [*scaling_ready] when it was issued, and what it returned. *)
Record StopStart : Type := {
  call_name : string;
  call_task : Task;
  call_gate : bool;
  call_task_after : Task;
  call_ready : bool;
  call_err : error
}.

Inductive LogMsg : Type :=
  | FailedGetNewDemand (e : string)
  | ScaleChangeOutstanding
  | FailedStartTasks (name e : string)
  | FailedGetDemandFor (name e : string)
  | RunningTasks (ts : gmap string Task).

Inductive Event : Type :=
  | Call (c : StopStart)
  | Log (m : LogMsg).

Definition calls_of (evs : list Event) : list StopStart :=
  omap (fun ev => match ev with Call c => Some c | _ => None end) evs.

(** [order] is an order in which [for name, task := range ts] may visit
    the keys of [ts]: each key once.  Go does not fix the order. *)
Definition range_order (ts : gmap string Task) (order : list string) : Prop :=
  NoDup order /\ forall k, k ∈ order <-> is_Some (ts !! k).

Section Program.
Context {Sch I : Type} `{!Scheduler Sch, !Input I}.

(** What the arguments of [handleDemandChange] point to. *)
Record Ctx : Type := {
  input : I;
  sched : Sch;
  scaling_ready : bool;
  ts : gmap string Task
}.

(** [func update(input demand.Input, ts map[string]demand.Task) (bool, error)].
    [p1] and [p2] are copies of the map's entries; the map is written
    only after both queries succeeded.  The task names are the
    package-level variables of [main.go]. *)
Definition update (g : Main.Globals) (i : I) (ts : gmap string Task)
  : (bool * error) * I * gmap string Task * list Event :=
  let p1 := index ts (Main.p1TaskName g) in
  let p2 := index ts (Main.p2TaskName g) in
  let oldP1Demand := Demand p1 in
  let oldP2Demand := Demand p2 in
  let '((v1, err), i) := GetDemand i (Main.p1TaskName g) in
  let p1 := with_Demand p1 v1 in
  match err with
  | Some e =>
      ((false, err), i, ts, [Log (FailedGetDemandFor (Main.p1TaskName g) e)])
  | None =>
      let '((v2, err), i) := GetDemand i (Main.p2TaskName g) in
      let p2 := with_Demand p2 v2 in
      match err with
      | Some e =>
          ((false, err), i, ts,
           [Log (FailedGetDemandFor (Main.p2TaskName g) e)])
      | None =>
          let demandchange :=
            int_ne (Demand p1) oldP1Demand || int_ne (Demand p2) oldP2Demand in
          let ts := <[Main.p1TaskName g := p1]> ts in
          let ts := <[Main.p2TaskName g := p2]> ts in
          ((demandchange, err), i, ts, [Log (RunningTasks ts)])
      end
  end.

(** The loop [for name, task := range ts { ... }] over the keys still to
    visit.  [err] is the variable of [handleDemandChange]; the result is
    what the function returns once the loop is left. *)
Fixpoint range_tasks (order : list string) (err : error) (c : Ctx)
  : error * Ctx * list Event :=
  match order with
  | [] => (err, c, [])
  | name :: rest =>
      match ts c !! name with
      | None => range_tasks rest err c
      | Some task =>
          if negb (scaling_ready c)
          then (None, c, [Log ScaleChangeOutstanding])
          else
            let '((task', ready', err), s') :=
              StopStartNTasks (sched c) name task in
            let ev :=
              Call {| call_name := name; call_task := task;
                      call_gate := scaling_ready c;
                      call_task_after := task'; call_ready := ready';
                      call_err := err |} in
            let c :=
              {| input := input c; sched := s'; scaling_ready := ready';
                 ts := ts c |} in
            match err with
            | Some e => (err, c, [ev; Log (FailedStartTasks name e)])
            | None =>
                let c :=
                  {| input := input c; sched := sched c;
                     scaling_ready := scaling_ready c;
                     ts := <[name := task']> (ts c) |} in
                let '(r, c, evs) := range_tasks rest err c in
                (r, c, ev :: evs)
            end
      end
  end.

(** [func handleDemandChange(input, s, scaling_ready, ready, ts) error];
    [order] is the order the range loop takes this time. *)
Definition handleDemandChange (g : Main.Globals) (order : list string) (c : Ctx)
  : error * Ctx * list Event :=
  let '((demandChanged, err), i, ts', e1) := update g (input c) (ts c) in
  let c :=
    {| input := i; sched := sched c; scaling_ready := scaling_ready c;
       ts := ts' |} in
  match err with
  | Some e => (err, c, e1 ++ [Log (FailedGetNewDemand e)])
  | None =>
      if demandChanged then
        let '(r, c, e2) := range_tasks order err c in
        (r, c, e1 ++ e2)
      else (err, c, e1)
  end.

End Program.
End Handler.

(** ** Scripted collaborators

    Small implementations of the interfaces, to run the program on
    concrete inputs. *)

Module Fixtures.

(** A demand source that replays a list of answers, then repeats its
    last word. *)
Record Replay : Type := {
  answers : list (Z * error);
  afterwards : Z * error
}.

#[global] Instance Replay_Input : Input Replay := {
  GetDemand r _ :=
    match answers r with
    | [] => (afterwards r, r)
    | a :: rest => (a, {| answers := rest; afterwards := afterwards r |})
    end
}.

(** A demand source that always answers [v]. *)
Definition steady (v : Z) : Replay :=
  {| answers := []; afterwards := (v, None) |}.

Definition replay (vs : list Z) : Replay :=
  {| answers := (fun v => (v, None)) <$> vs; afterwards := (0, None) |}.

(** A scheduler for [main.go] that replays the results of
    [StopStartNTasks], counts fixed numbers and initialises without
    error. *)
Record MainSched : Type := {
  stopstart_results : list error;
  counted : Z * Z * error
}.

#[global] Instance MainSched_Scheduler : Main.Scheduler MainSched := {
  Main.InitScheduler s _ := (None, s);
  Main.StopStartNTasks s _ _ _ _ :=
    match stopstart_results s with
    | [] => (None, s)
    | r :: rest => (r, {| stopstart_results := rest; counted := counted s |})
    end;
  Main.CountAllTasks s := (counted s, s)
}.

Definition main_sched (rs : list error) : MainSched :=
  {| stopstart_results := rs; counted := (0, 0, None) |}.

(** A host whose clock stands still, whose URLs all parse, and whose
    HTTP client replays a list of results ([200 OK] afterwards). *)
Record Wire : Type := {
  clock : Z;
  replies : list (option Main.Response * error)
}.

Definition ok200 : Main.Response :=
  {| Main.StatusCode := 200; Main.Status := "200 OK" |}.

#[global] Instance Wire_Host : Main.Host Wire := {
  Main.Now_Unix w := (clock w, w);
  Main.NewRequest_parse _ := None;
  Main.Do w _ :=
    match replies w with
    | [] => ((Some ok200, None), w)
    | r :: rest => (r, {| clock := clock w; replies := rest |})
    end
}.

Definition wire (rs : list (option Main.Response * error)) : Wire :=
  {| clock := 0; replies := rs |}.

(** A scheduler for the handler that replays (ready, error) pairs and
    records the demand as requested in the task it is given. *)
Record TaskSched : Type := {
  results : list (bool * error)
}.

Definition requested_as_demanded (t : Handler.Task) : Handler.Task :=
  {| Handler.Name := Handler.Name t;
     Handler.FamilyName := Handler.FamilyName t;
     Handler.Demand := Handler.Demand t;
     Handler.Requested := Handler.Demand t;
     Handler.Running := Handler.Running t |}.

#[global] Instance TaskSched_Scheduler : Handler.Scheduler TaskSched := {
  Handler.StopStartNTasks s _ t :=
    match results s with
    | [] => ((requested_as_demanded t, true, None), s)
    | (ready, err) :: rest =>
        ((requested_as_demanded t, ready, err), {| results := rest |})
    end
}.

Definition names : Main.Globals :=
  {| Main.p1TaskName := "priority1-demand";
     Main.p2TaskName := "priority2-demand";
     Main.p1FamilyName := ""; Main.p2FamilyName := "" |}.

Definition demand_of (p1 p2 : Z) (i : Replay) (s : MainSched)
  : Main.Demand :=
  {| Main.sched := s; Main.input := i; Main.p1demand := p1;
     Main.p2demand := p2; Main.p1requested := 0; Main.p2requested := 0 |}.

Definition task (name : string) (demand : Z) : Handler.Task :=
  {| Handler.Name := name; Handler.FamilyName := "";
     Handler.Demand := demand; Handler.Requested := 0;
     Handler.Running := 0 |}.

(** Two tasks under the default names, demanding [d1] and [d2]. *)
Definition two_tasks (d1 d2 : Z) : gmap string Handler.Task :=
  <["priority2-demand" := task "priority2-demand" d2]>
    (<["priority1-demand" := task "priority1-demand" d1]> ∅).

Definition ctx (i : Replay) (s : TaskSched) (ready : bool) (d1 d2 : Z)
  : Handler.Ctx :=
  {| Handler.input := i; Handler.sched := s;
     Handler.scaling_ready := ready; Handler.ts := two_tasks d1 d2 |}.

(** The process environment with no variable set. *)
Definition no_env : Main.Environ := fun _ => "".

Definition backends (i : Replay) (s : MainSched)
  : Main.Backends (Sch := MainSched) (I := Replay) :=
  {| Main.consul_NewDemandModel := i; Main.rng_NewDemandModel := i;
     Main.marathon_NewScheduler := s; Main.compose_NewScheduler := s |}.

(** The variables of [main] on entering the loop, around a given
    [Demand] record. *)
Definition proc_of (d : Main.Demand (Sch := MainSched) (I := Replay))
    (h : Wire) : Main.Proc :=
  {| Main.globals := names; Main.sendstate := "true";
     Main.currentdemand := d; Main.host := h;
     Main.demandchangeflag := true; Main.sleepcount := 0 |}.

End Fixtures.

(** * Properties *)

(** ** Integers *)

Lemma wrap_id (z : Z) : is_int z -> wrap z = z.
Proof.
  unfold is_int, wrap, int_bits. intros Hz.
  rewrite Z.mod_small; lia.
Qed.

Lemma int_ne_spec (a b : Z) : int_ne a b = true <-> a <> b.
Proof.
  unfold int_ne. destruct (Z.eqb_spec a b); simpl; split; congruence.
Qed.

Lemma int_sub_capacity (raw : Z) :
  0 <= raw <= Main.const_maxcontainers ->
  int_sub Main.const_maxcontainers raw = Main.const_maxcontainers - raw.
Proof.
  unfold Main.const_maxcontainers. intros Hraw.
  apply wrap_id. unfold is_int, int_bits. lia.
Qed.

Lemma clamp_id (x lo hi : Z) : lo <= x <= hi -> clamp x lo hi = x.
Proof. unfold clamp. lia. Qed.

(** ** The [Demand] record of main.go *)

Section MainDemand.
Context {Sch I : Type} `{!Main.Scheduler Sch, !Input I}.
Implicit Types d : Main.Demand (Sch := Sch) (I := I).

Lemma set_fields d (p1 p2 : Z) :
  let d' := (Main.set d p1 p2).2 in
  Main.p1demand d' = (if p1 =? -1 then Main.p1demand d else p1) /\
  Main.p2demand d' = (if p2 =? -1 then Main.p2demand d else p2) /\
  Main.sched d' = Main.sched d /\ Main.input d' = Main.input d /\
  Main.p1requested d' = Main.p1requested d /\
  Main.p2requested d' = Main.p2requested d.
Proof.
  unfold Main.set, int_ne. simpl.
  destruct (p1 =? -1), (p2 =? -1); simpl; auto 10.
Qed.

(** What a successful sample stores. *)
Lemma update_stores d (raw : Z) (i' : I) :
  GetDemand (Main.input d) "priority1-demand" = ((raw, None), i') ->
  let cap := Main.const_maxcontainers in
  let d' := (Main.update d).1.2 in
  Main.p1demand d' = (if raw =? -1 then Main.p1demand d else raw) /\
  Main.p2demand d' =
    (if int_sub cap raw =? -1 then Main.p2demand d else int_sub cap raw) /\
  (Main.update d).1.1 =
    int_ne raw (Main.p1demand d) || int_ne (int_sub cap raw) (Main.p2demand d) /\
  Main.input d' = i' /\ Main.sched d' = Main.sched d /\
  Main.p1requested d' = Main.p1requested d /\
  Main.p2requested d' = Main.p2requested d.
Proof.
  intros Hget. unfold Main.update. rewrite Hget.
  unfold Main.set, int_ne. simpl.
  destruct (raw =? -1), (int_sub Main.const_maxcontainers raw =? -1);
    simpl; auto 10.
Qed.

(** What a failed sample leaves behind. *)
Lemma update_failed d (raw : Z) (e : string) (i' : I) :
  GetDemand (Main.input d) "priority1-demand" = ((raw, Some e), i') ->
  Main.update d = (false, Main.with_input d i', [Main.Log (Main.FailedGetNewDemand e)]).
Proof. intros Hget. unfold Main.update. now rewrite Hget. Qed.

End MainDemand.

(** C1 (amended). [Demand.update] stores the sampled priority-1 demand
    and its complement to the capacity as they are, a value of -1
    leaving the stored field alone; it does not clamp.  For a sample
    within [0, capacity] this is p1 = clamp(raw, 0, capacity) and
    p2 = capacity - p1. *)
Theorem update_allocation {Sch I : Type} `{!Main.Scheduler Sch, !Input I}
    (d : Main.Demand (Sch := Sch) (I := I)) (raw : Z) (i' : I) :
  GetDemand (Main.input d) "priority1-demand" = ((raw, None), i') ->
  let cap := Main.const_maxcontainers in
  let d' := (Main.update d).1.2 in
  Main.p1demand d' = (if raw =? -1 then Main.p1demand d else raw) /\
  Main.p2demand d' =
    (if int_sub cap raw =? -1 then Main.p2demand d else int_sub cap raw) /\
  (0 <= raw <= cap ->
   Main.p1demand d' = clamp raw 0 cap /\
   Main.p2demand d' = cap - Main.p1demand d').
Proof.
  intros Hget cap d'.
  destruct (update_stores d raw i' Hget) as (Hp1 & Hp2 & _).
  fold cap d' in Hp1, Hp2.
  split; [exact Hp1 | split; [exact Hp2 |]].
  intros Hraw. rewrite Hp1, Hp2.
  rewrite int_sub_capacity by exact Hraw.
  rewrite clamp_id by exact Hraw. subst cap.
  unfold Main.const_maxcontainers in *.
  destruct (Z.eqb_spec raw (-1)); [lia |].
  destruct (Z.eqb_spec (9 - raw) (-1)); [lia |].
  split; reflexivity.
Qed.

Lemma update_allocation_witness :
  let d := Fixtures.demand_of 5 4 (Fixtures.replay [7]) (Fixtures.main_sched []) in
  GetDemand (Main.input d) "priority1-demand" = ((7, None), Fixtures.replay []) /\
  0 <= 7 <= Main.const_maxcontainers /\
  Main.p1demand (Main.update d).1.2 = clamp 7 0 9 /\
  Main.p2demand (Main.update d).1.2 = 9 - Main.p1demand (Main.update d).1.2.
Proof.
  intros d.
  assert (Hraw : 0 <= 7 <= Main.const_maxcontainers)
    by (unfold Main.const_maxcontainers; lia).
  split; [reflexivity | split; [exact Hraw |]].
  exact (proj2 (proj2 (update_allocation d 7 (Fixtures.replay []) eq_refl)) Hraw).
Defined.

(** C1 as stated fails: a sample of 12 against a capacity of 9 is stored
    as p1 = 12, not clamped to 9, and p2 becomes -3, not 0. *)
Lemma update_over_capacity_not_clamped :
  let d := Fixtures.demand_of 5 4 (Fixtures.replay [12]) (Fixtures.main_sched []) in
  let d' := (Main.update d).1.2 in
  (GetDemand (Main.input d) "priority1-demand").1 = (12, None) /\
  Main.p1demand d' = 12 /\
  Main.p1demand d' <> clamp 12 0 Main.const_maxcontainers /\
  Main.p2demand d' = -3 /\
  Main.p2demand d' <> Main.const_maxcontainers - clamp 12 0 Main.const_maxcontainers.
Proof. vm_compute. repeat split; congruence. Qed.

(** C2 (amended). After a successful sample whose raw demand lies within
    [0, capacity], the stored demands add up to the capacity and each
    lies within [0, capacity]. *)
Theorem update_invariant {Sch I : Type} `{!Main.Scheduler Sch, !Input I}
    (d : Main.Demand (Sch := Sch) (I := I)) (raw : Z) (i' : I) :
  GetDemand (Main.input d) "priority1-demand" = ((raw, None), i') ->
  0 <= raw <= Main.const_maxcontainers ->
  let cap := Main.const_maxcontainers in
  let d' := (Main.update d).1.2 in
  Main.p1demand d' + Main.p2demand d' = cap /\
  0 <= Main.p1demand d' <= cap /\
  0 <= Main.p2demand d' <= cap.
Proof.
  intros Hget Hraw cap d'.
  destruct (update_stores d raw i' Hget) as (Hp1 & Hp2 & _).
  fold cap d' in Hp1, Hp2. rewrite Hp1, Hp2.
  rewrite int_sub_capacity by exact Hraw. subst cap.
  unfold Main.const_maxcontainers in *.
  destruct (Z.eqb_spec raw (-1)); [lia |].
  destruct (Z.eqb_spec (9 - raw) (-1)); lia.
Qed.

Lemma update_invariant_witness :
  let d := Fixtures.demand_of 5 4 (Fixtures.replay [9]) (Fixtures.main_sched []) in
  let d' := (Main.update d).1.2 in
  GetDemand (Main.input d) "priority1-demand" = ((9, None), Fixtures.replay []) /\
  0 <= 9 <= Main.const_maxcontainers /\
  Main.p1demand d' + Main.p2demand d' = 9 /\
  0 <= Main.p1demand d' <= 9 /\ 0 <= Main.p2demand d' <= 9.
Proof.
  intros d.
  assert (Hraw : 0 <= 9 <= Main.const_maxcontainers)
    by (unfold Main.const_maxcontainers; lia).
  split; [reflexivity | split; [exact Hraw |]].
  exact (update_invariant d 9 (Fixtures.replay []) eq_refl Hraw).
Defined.

(** C2 as stated fails for a non-negative sample above the capacity: a
    sample of 10 makes the complement -1, which [set] takes as "leave
    alone", so the stored demands are p1 = 10 and the old p2 = 4. *)
Lemma update_invariant_broken_above_capacity :
  let d := Fixtures.demand_of 5 4 (Fixtures.replay [10]) (Fixtures.main_sched []) in
  let d' := (Main.update d).1.2 in
  (GetDemand (Main.input d) "priority1-demand").1 = (10, None) /\
  0 <= 10 /\
  Main.p1demand d' = 10 /\ Main.p2demand d' = 4 /\
  Main.p1demand d' + Main.p2demand d' <> Main.const_maxcontainers /\
  ~ Main.p1demand d' <= Main.const_maxcontainers.
Proof. vm_compute. repeat split; congruence. Qed.

(** ** [Demand.handle] *)

Section MainHandle.
Context {Sch I : Type} `{!Main.Scheduler Sch, !Input I}.
Implicit Types d : Main.Demand (Sch := Sch) (I := I).

(** The two calls of [handle], priority 1 first, whatever they return. *)
Lemma handle_calls (g : Main.Globals) d :
  exists r1 r2 : error,
    Main.calls_of (Main.handle g d).2 =
      [ Main.CallStopStart (Main.p1TaskName g) (Main.p1FamilyName g)
          (Main.p1demand d) (Main.p1requested d) r1;
        Main.CallStopStart (Main.p2TaskName g) (Main.p2FamilyName g)
          (Main.p2demand d) (Main.p2requested d) r2 ].
Proof.
  unfold Main.handle.
  destruct (Main.StopStartNTasks (Main.sched d) _ _ _ _) as [r1 s1].
  simpl.
  destruct (Main.StopStartNTasks s1 _ _ _ _) as [r2 s2].
  exists r1, r2. destruct r1; reflexivity.
Qed.

(** [handle] returns the result of the priority-1 call, whatever the
    priority-2 call returned. *)
Lemma handle_returns_priority1_result (g : Main.Globals) d :
  (Main.handle g d).1.1 =
    (Main.StopStartNTasks (Main.sched d) (Main.p1TaskName g)
       (Main.p1FamilyName g) (Main.p1demand d) (Main.p1requested d)).1.
Proof.
  unfold Main.handle.
  destruct (Main.StopStartNTasks (Main.sched d) _ _ _ _) as [r1 s1].
  simpl.
  destruct (Main.StopStartNTasks s1 _ _ _ _) as [r2 s2].
  reflexivity.
Qed.

Lemma handle_keeps_demand (g : Main.Globals) d :
  let d' := (Main.handle g d).1.2 in
  Main.p1demand d' = Main.p1demand d /\ Main.p2demand d' = Main.p2demand d /\
  Main.input d' = Main.input d.
Proof.
  unfold Main.handle.
  destruct (Main.StopStartNTasks (Main.sched d) _ _ _ _) as [r1 s1].
  simpl.
  destruct (Main.StopStartNTasks s1 _ _ _ _) as [r2 s2].
  simpl. auto.
Qed.

End MainHandle.

(** C7, the failing input.  The priority-1 call succeeds, the priority-2
    call fails: [handle] has issued both calls and returns [nil]. *)
Theorem handle_drops_priority2_error :
  let d :=
    Fixtures.demand_of 5 4 (Fixtures.steady 5)
      (Fixtures.main_sched [None; Some "marathon unreachable"]) in
  Main.calls_of (Main.handle Fixtures.names d).2 =
    [ Main.CallStopStart "priority1-demand" "" 5 0 None;
      Main.CallStopStart "priority2-demand" "" 4 0 (Some "marathon unreachable") ] /\
  (Main.handle Fixtures.names d).1.1 = None.
Proof. vm_compute. split; reflexivity. Qed.

(** ** [sendStateToAPI] *)

Section MainReport.
Context {Sch I H : Type} `{!Main.Scheduler Sch, !Input I, !Main.Host H}.
Implicit Types d : Main.Demand (Sch := Sch) (I := I).

(** With a response in hand and no transport error, the push succeeds
    exactly for a status of at most 204, and returns in either case. *)
Lemma sendStateToAPI_status (environ : Main.Environ) d (h h1 h2 : H)
    (c1 c2 now : Z) (s1 : Sch) (r : Main.Response) :
  Main.CountAllTasks (Main.sched d) = ((c1, c2, None), s1) ->
  Main.Now_Unix h = (now, h1) ->
  Main.NewRequest_parse
    (Main.getBaseF12APIUrl environ +:+ "/metrics/" +:+ "5k5gk") = None ->
  (forall req, Main.Do h1 req = ((Some r, None), h2)) ->
  exists err : error,
    (Main.sendStateToAPI environ d h).1.1.1 = Returned err /\
    (err = None <-> Main.StatusCode r <= 204).
Proof.
  intros Hcount Hnow Hparse Hdo. unfold Main.sendStateToAPI.
  rewrite Hcount. simpl. rewrite Hnow, Hparse, Hdo.
  destruct (Z.gtb_spec (Main.StatusCode r) 204) as [Hgt | Hle].
  - eexists. split; [reflexivity |]. unfold Errorf. split; [discriminate | lia].
  - eexists. split; [reflexivity |]. split; [lia | reflexivity].
Qed.

(** A transport error arrives with a [nil] response: the deferred
    [resp.Body.Close()] panics before the error is looked at. *)
Lemma sendStateToAPI_nil_response (environ : Main.Environ) d (h h1 h2 : H)
    (c1 c2 now : Z) (s1 : Sch) (err : error) :
  Main.CountAllTasks (Main.sched d) = ((c1, c2, None), s1) ->
  Main.Now_Unix h = (now, h1) ->
  Main.NewRequest_parse
    (Main.getBaseF12APIUrl environ +:+ "/metrics/" +:+ "5k5gk") = None ->
  (forall req, Main.Do h1 req = ((None, err), h2)) ->
  (Main.sendStateToAPI environ d h).1.1.1 = Panicked.
Proof.
  intros Hcount Hnow Hparse Hdo. unfold Main.sendStateToAPI.
  rewrite Hcount. simpl. rewrite Hnow, Hparse, Hdo. reflexivity.
Qed.

(** The report leaves the demands alone. *)
Lemma sendStateToAPI_keeps_demand (environ : Main.Environ) d (h : H) :
  let d' := (Main.sendStateToAPI environ d h).1.1.2 in
  Main.p1demand d' = Main.p1demand d /\ Main.p2demand d' = Main.p2demand d /\
  Main.input d' = Main.input d /\
  Main.p1requested d' = Main.p1requested d /\
  Main.p2requested d' = Main.p2requested d.
Proof.
  unfold Main.sendStateToAPI.
  destruct (Main.CountAllTasks (Main.sched d)) as [[[c1 c2] [e|]] s1]; simpl;
    [auto |].
  destruct (Main.Now_Unix h) as [now h1].
  destruct (Main.NewRequest_parse _); simpl; [auto |].
  destruct (Main.Do h1 _) as [[[r|] [e|]] h2]; simpl; auto.
  destruct (Main.StatusCode r >? 204); simpl; auto.
Qed.

End MainReport.

(** C8, the failing input.  The HTTP client reports a transport error,
    so there is no response: [sendStateToAPI] panics, and [main] with it
    on the fifth iteration, the first to report.  A status of 500 at the
    same place is returned as an error, logged, and the loop goes on. *)
Theorem sendStateToAPI_transport_error_panics :
  let d := Fixtures.demand_of 5 4 (Fixtures.steady 5) (Fixtures.main_sched []) in
  let refused := Fixtures.wire [(None, Some "dial tcp: connection refused")] in
  let busy :=
    Fixtures.wire
      [(Some {| Main.StatusCode := 500;
                Main.Status := "500 Internal Server Error" |}, None)] in
  let run h n :=
    Main.main Fixtures.no_env
      (Fixtures.backends (Fixtures.steady 5) (Fixtures.main_sched [])) h n in
  (Main.sendStateToAPI Fixtures.no_env d refused).1.1.1 = Panicked /\
  (run refused 5%nat).1 = Panicked /\
  (Main.sendStateToAPI Fixtures.no_env d busy).1.1.1 =
    Returned (Some "error response from API. 500 Internal Server Error") /\
  (exists p, (run busy 6%nat).1 = Returned (Some p)) /\
  Main.Log (Main.FailedSendState
              "error response from API. 500 Internal Server Error")
    ∈ (run busy 6%nat).2.
Proof.
  split; [vm_compute; reflexivity |].
  split; [vm_compute; reflexivity |].
  split; [vm_compute; reflexivity |].
  split; [vm_compute; eexists; reflexivity |].
  vm_compute. set_solver.
Qed.

(** ** The range loop of [handleDemandChange] *)

Section HandlerLoop.
Context {Sch I : Type} `{!Handler.Scheduler Sch, !Input I}.
Implicit Types c : Handler.Ctx (Sch := Sch) (I := I).
Implicit Types ts : gmap string Handler.Task.

Lemma calls_of_app (e1 e2 : list Handler.Event) :
  Handler.calls_of (e1 ++ e2) = Handler.calls_of e1 ++ Handler.calls_of e2.
Proof. apply omap_app. Qed.

(** One visit of the loop: name the entry, the gate and what the
    scheduler returns. *)
Ltac range_visit name c :=
  simpl;
  let task := fresh "task" in
  let Hts := fresh "Hts" in
  let Hgate := fresh "Hgate" in
  let Hcall := fresh "Hcall" in
  let after := fresh "after" in
  let ready := fresh "ready" in
  let failure := fresh "failure" in
  let next := fresh "next" in
  destruct (Handler.ts c !! name) as [task|] eqn:Hts;
  [ destruct (Handler.scaling_ready c) eqn:Hgate; simpl;
    [ destruct (Handler.StopStartNTasks (Handler.sched c) name task)
        as [[[after ready] [failure|]] next] eqn:Hcall; simpl
    | ]
  | ].

(** The loop goes on after a call that succeeded. *)
Ltac range_rest IH c' err :=
  let r := fresh "r" in
  let cf := fresh "cf" in
  let evs := fresh "evs" in
  let Hrest := fresh "Hrest" in
  specialize (IH err c');
  destruct (Handler.range_tasks _ err c') as [[r cf] evs] eqn:Hrest;
  simpl in *.

Lemma range_tasks_gate (order : list string) (err : error) c :
  Forall (fun k => Handler.call_gate k = true)
    (Handler.calls_of (Handler.range_tasks order err c).2).
Proof.
  revert err c. induction order as [|name rest IH]; intros err c.
  - constructor.
  - range_visit name c.
    + repeat constructor.
    + match goal with
      | |- context [Handler.range_tasks rest ?e ?c'] => range_rest IH c' e
      end.
      constructor; [reflexivity | exact IH].
    + constructor.
    + apply IH.
Qed.

Lemma range_tasks_closed_gate (order : list string) (err : error) c :
  Handler.scaling_ready c = false ->
  Handler.calls_of (Handler.range_tasks order err c).2 = [].
Proof.
  intros Hclosed. revert err. induction order as [|name rest IH]; intros err.
  - reflexivity.
  - range_visit name c; first [congruence | apply IH].
Qed.

(** A call that returned an error is the last call of the loop. *)
Lemma range_tasks_error_last (order : list string) (err : error) c
    (pre post : list Handler.StopStart) (k : Handler.StopStart) :
  Handler.calls_of (Handler.range_tasks order err c).2 = pre ++ k :: post ->
  Handler.call_err k <> None ->
  post = [].
Proof.
  revert err c pre. induction order as [|name rest IH]; intros err c pre.
  - simpl. intros Hsplit. now destruct pre.
  - range_visit name c.
    + intros Hsplit _. destruct pre as [|a [|b pre]]; now simplify_eq/=.
    + match goal with
      | |- context [Handler.range_tasks rest ?e ?c'] =>
          specialize (IH e c');
          destruct (Handler.range_tasks rest e c') as [[r cf] evs]
      end.
      simpl in *. intros Hsplit Herr.
      destruct pre as [|a pre]; simplify_eq/=; try done.
      eapply IH; eauto.
    + intros Hsplit. now destruct pre.
    + apply IH.
Qed.

(** The loop returns the error of a call that failed. *)
Lemma range_tasks_returns_error (order : list string) (err : error) c
    (k : Handler.StopStart) (e : string) :
  k ∈ Handler.calls_of (Handler.range_tasks order err c).2 ->
  Handler.call_err k = Some e ->
  (Handler.range_tasks order err c).1.1 = Some e.
Proof.
  revert err c. induction order as [|name rest IH]; intros err c.
  - simpl. intros Hin. now apply not_elem_of_nil in Hin.
  - range_visit name c.
    + intros Hin Herr. apply list_elem_of_singleton in Hin. now subst k.
    + match goal with
      | |- context [Handler.range_tasks rest ?e ?c'] =>
          specialize (IH e c');
          destruct (Handler.range_tasks rest e c') as [[r cf] evs]
      end.
      simpl in *. intros Hin Herr.
      apply elem_of_cons in Hin as [-> | Hin]; [discriminate | auto].
    + intros Hin. now apply not_elem_of_nil in Hin.
    + apply IH.
Qed.

(** The loop writes the map only at the names it visits. *)
Lemma range_tasks_ts_other (order : list string) (err : error) c (n : string) :
  n ∉ order ->
  Handler.ts (Handler.range_tasks order err c).1.2 !! n = Handler.ts c !! n.
Proof.
  revert err c. induction order as [|name rest IH]; intros err c Hn.
  - reflexivity.
  - apply not_elem_of_cons in Hn as [Hne Hn].
    range_visit name c; try reflexivity.
    + match goal with
      | |- context [Handler.range_tasks rest ?e ?c'] =>
          specialize (IH e c' Hn);
          destruct (Handler.range_tasks rest e c') as [[r cf] evs]
      end.
      simpl in *. rewrite IH. now apply lookup_insert_ne.
    + now apply IH.
Qed.

Lemma range_tasks_call_names (order : list string) (err : error) c
    (k : Handler.StopStart) :
  k ∈ Handler.calls_of (Handler.range_tasks order err c).2 ->
  Handler.call_name k ∈ order.
Proof.
  revert err c. induction order as [|name rest IH]; intros err c.
  - simpl. intros Hin. now apply not_elem_of_nil in Hin.
  - range_visit name c.
    + intros Hin. apply list_elem_of_singleton in Hin. subst k. simpl. left.
    + match goal with
      | |- context [Handler.range_tasks rest ?e ?c'] =>
          specialize (IH e c');
          destruct (Handler.range_tasks rest e c') as [[r cf] evs]
      end.
      simpl in *. intros Hin.
      apply elem_of_cons in Hin as [-> | Hin]; [left | right; auto].
    + intros Hin. now apply not_elem_of_nil in Hin.
    + intros Hin. right. eapply IH, Hin.
Qed.

(** A call that succeeded is committed to the map, and stays there. *)
Lemma range_tasks_commit (order : list string) (err : error) c
    (k : Handler.StopStart) :
  NoDup order ->
  k ∈ Handler.calls_of (Handler.range_tasks order err c).2 ->
  Handler.call_err k = None ->
  Handler.ts (Handler.range_tasks order err c).1.2 !! Handler.call_name k =
    Some (Handler.call_task_after k).
Proof.
  revert err c. induction order as [|name rest IH]; intros err c Hnodup.
  - simpl. intros Hin. now apply not_elem_of_nil in Hin.
  - apply NoDup_cons in Hnodup as [Hfresh Hnodup].
    range_visit name c.
    + intros Hin Herr. apply list_elem_of_singleton in Hin. now subst k.
    + match goal with
      | |- context [Handler.range_tasks rest ?e ?c'] =>
          specialize (IH e c' Hnodup);
          pose proof (range_tasks_ts_other rest e c' name Hfresh) as Hkeep;
          destruct (Handler.range_tasks rest e c') as [[r cf] evs]
      end.
      simpl in *. intros Hin Herr.
      apply elem_of_cons in Hin as [-> | Hin]; [| auto].
      simpl. rewrite Hkeep. apply lookup_insert_eq.
    + intros Hin. now apply not_elem_of_nil in Hin.
    + now apply IH.
Qed.

(** When every name to visit is a key of the map, the calls follow the
    visiting order: their names are a prefix of it. *)
Lemma range_tasks_prefix (order : list string) (err : error) c :
  (forall n, n ∈ order -> is_Some (Handler.ts c !! n)) ->
  (Handler.call_name <$> Handler.calls_of (Handler.range_tasks order err c).2)
    `prefix_of` order.
Proof.
  revert err c. induction order as [|name rest IH]; intros err c Hkeys.
  - done.
  - range_visit name c.
    + apply prefix_cons, prefix_nil.
    + match goal with
      | |- context [Handler.range_tasks rest ?e ?c'] =>
          specialize (IH e c');
          destruct (Handler.range_tasks rest e c') as [[r cf] evs]
      end.
      simpl in *. apply prefix_cons, IH.
      intros n Hn. rewrite lookup_insert_is_Some.
      destruct (decide (name = n)); [now left | right].
      split; [done |]. apply Hkeys. now right.
    + apply prefix_nil.
    + destruct (Hkeys name) as [t Ht]; [left | congruence].
Qed.

(** No name that comes after a failed call in the visiting order is
    called in that loop. *)
Lemma range_tasks_error_stops (before after : list string) (n : string)
    (err : error) c (k k' : Handler.StopStart) :
  NoDup (before ++ n :: after) ->
  let calls :=
    Handler.calls_of (Handler.range_tasks (before ++ n :: after) err c).2 in
  k ∈ calls -> Handler.call_name k = n -> Handler.call_err k <> None ->
  k' ∈ calls -> Handler.call_name k' ∉ after.
Proof.
  intros Hnodup calls. subst calls.
  revert err c. induction before as [|b before IH]; intros err c.
  - simpl in Hnodup. apply NoDup_cons in Hnodup as [Hfresh Hnodup].
    range_visit n c.
    + intros _ _ _ Hk'. apply list_elem_of_singleton in Hk'. now subst k'.
    + pose proof (range_tasks_call_names after) as Hnames.
      match goal with
      | |- context [Handler.range_tasks after ?e ?c'] =>
          specialize (Hnames e c');
          destruct (Handler.range_tasks after e c') as [[r cf] evs]
      end.
      simpl in *. intros Hk Hname Herr.
      apply elem_of_cons in Hk as [-> | Hk]; [done |].
      apply Hnames in Hk. congruence.
    + intros Hk. now apply not_elem_of_nil in Hk.
    + intros Hk Hname. apply range_tasks_call_names in Hk. congruence.
  - simpl in Hnodup. apply NoDup_cons in Hnodup as [Hfresh Hnodup].
    specialize (IH Hnodup).
    assert (Hbn : b <> n) by (intros ->; apply Hfresh; set_solver).
    assert (Hba : b ∉ after) by set_solver.
    change ((b :: before) ++ n :: after) with (b :: (before ++ n :: after)).
    range_visit b c.
    + intros Hk Hname. apply list_elem_of_singleton in Hk. now subst k.
    + match goal with
      | |- context [Handler.range_tasks _ ?e ?c'] =>
          specialize (IH e c');
          destruct (Handler.range_tasks _ e c') as [[r cf] evs]
      end.
      simpl in *. intros Hk Hname Herr Hk'.
      apply elem_of_cons in Hk as [-> | Hk]; [done |].
      apply elem_of_cons in Hk' as [-> | Hk']; [done | auto].
    + intros Hk. now apply not_elem_of_nil in Hk.
    + apply IH.
Qed.

(** *** The sample *)

(** The three ways a sample can go. *)
Lemma update_cases (g : Main.Globals) (i : I) ts :
  let p1 := Main.p1TaskName g in
  let p2 := Main.p2TaskName g in
  (exists v e i1,
     GetDemand i p1 = ((v, Some e), i1) /\
     Handler.update g i ts =
       ((false, Some e), i1, ts, [Handler.Log (Handler.FailedGetDemandFor p1 e)]))
  \/ (exists v1 i1 v2 e i2,
     GetDemand i p1 = ((v1, None), i1) /\
     GetDemand i1 p2 = ((v2, Some e), i2) /\
     Handler.update g i ts =
       ((false, Some e), i2, ts, [Handler.Log (Handler.FailedGetDemandFor p2 e)]))
  \/ (exists v1 i1 v2 i2,
     GetDemand i p1 = ((v1, None), i1) /\
     GetDemand i1 p2 = ((v2, None), i2) /\
     let ts' :=
       <[p2 := Handler.with_Demand (Handler.index ts p2) v2]>
         (<[p1 := Handler.with_Demand (Handler.index ts p1) v1]> ts) in
     Handler.update g i ts =
       ((int_ne v1 (Handler.Demand (Handler.index ts p1))
         || int_ne v2 (Handler.Demand (Handler.index ts p2)), None),
        i2, ts', [Handler.Log (Handler.RunningTasks ts')])).
Proof.
  intros p1 p2. unfold Handler.update. fold p1 p2.
  destruct (GetDemand i p1) as [[v1 [e|]] i1] eqn:H1.
  - left. by exists v1, e, i1.
  - destruct (GetDemand i1 p2) as [[v2 [e|]] i2] eqn:H2.
    + right. left. by exists v1, i1, v2, e, i2.
    + right. right. by exists v1, i1, v2, i2.
Qed.

Lemma update_no_calls (g : Main.Globals) (i : I) ts :
  Handler.calls_of (Handler.update g i ts).2 = [].
Proof.
  destruct (update_cases g i ts)
    as [(? & ? & ? & _ & ->) | [(? & ? & ? & ? & ? & _ & _ & ->)
                               | (? & ? & ? & ? & _ & _ & ->)]];
    reflexivity.
Qed.

(** A cycle makes no call, or it is its range loop, entered with the
    gate of the cycle and the map the sample left. *)
Lemma handleDemandChange_loop (g : Main.Globals) (order : list string) c :
  Handler.calls_of (Handler.handleDemandChange g order c).2 = [] \/
  exists c0,
    Handler.scaling_ready c0 = Handler.scaling_ready c /\
    Handler.ts c0 = (Handler.update g (Handler.input c) (Handler.ts c)).1.2 /\
    (Handler.handleDemandChange g order c).1 =
      (Handler.range_tasks order None c0).1 /\
    Handler.calls_of (Handler.handleDemandChange g order c).2 =
      Handler.calls_of (Handler.range_tasks order None c0).2.
Proof.
  unfold Handler.handleDemandChange.
  destruct (update_cases g (Handler.input c) (Handler.ts c))
    as [(? & ? & ? & _ & ->) | [(? & ? & ? & ? & ? & _ & _ & ->)
                               | (v1 & i1 & v2 & i2 & _ & _ & ->)]];
    simpl; [by left | by left |].
  destruct (_ || _); [| by left].
  right.
  match goal with
  | |- context [Handler.range_tasks order None ?c0] =>
      exists c0; destruct (Handler.range_tasks order None c0) as [[r c'] evs]
  end.
  repeat split.
Qed.

(** C3.  Every [StopStartNTasks] call of a cycle is issued with the
    readiness flag true, and a cycle entered with the flag false issues
    no call at all, whether the demand changed or not. *)
Theorem single_flight (g : Main.Globals) (order : list string) c :
  let calls := Handler.calls_of (Handler.handleDemandChange g order c).2 in
  Forall (fun k => Handler.call_gate k = true) calls /\
  (Handler.scaling_ready c = false -> calls = []).
Proof.
  intros calls. subst calls.
  destruct (handleDemandChange_loop g order c)
    as [-> | (c0 & Hgate & _ & _ & ->)].
  - split; [constructor | done].
  - split; [apply range_tasks_gate |].
    intros Hclosed. apply range_tasks_closed_gate. congruence.
Qed.

(** C4 (amended).  A [StopStartNTasks] call that returns an error is the
    last call of its cycle and its error is what the handler returns;
    the calls before it succeeded and their tasks stay committed in the
    map. *)
Theorem failed_call_ends_cycle (g : Main.Globals) (order : list string) c
    (pre post : list Handler.StopStart) (k : Handler.StopStart) :
  NoDup order ->
  Handler.calls_of (Handler.handleDemandChange g order c).2 = pre ++ k :: post ->
  Handler.call_err k <> None ->
  post = [] /\
  (Handler.handleDemandChange g order c).1.1 = Handler.call_err k /\
  (forall before after, order = before ++ Handler.call_name k :: after ->
     forall k', k' ∈ pre ++ k :: post -> Handler.call_name k' ∉ after) /\
  forall k', k' ∈ pre ->
    Handler.call_err k' = None /\
    Handler.ts (Handler.handleDemandChange g order c).1.2 !! Handler.call_name k'
      = Some (Handler.call_task_after k').
Proof.
  intros Hnodup.
  destruct (handleDemandChange_loop g order c)
    as [-> | (c0 & _ & _ & -> & ->)].
  { intros Hsplit. now destruct pre. }
  intros Hsplit Herr.
  split; [eapply range_tasks_error_last; eauto |].
  split.
  - destruct (Handler.call_err k) as [e|] eqn:Hk; [| done].
    eapply range_tasks_returns_error; [| exact Hk].
    rewrite Hsplit. set_solver.
  - split.
    { intros before after -> k' Hin. rewrite <- Hsplit in Hin.
    eapply (range_tasks_error_stops before after _ None c0 k k');
      [exact Hnodup | rewrite Hsplit; set_solver | done | exact Herr
      | exact Hin]. }
    intros k' Hin.
    assert (Hnone : Handler.call_err k' = None).
    { apply list_elem_of_split in Hin as (pre1 & pre2 & ->).
      destruct (Handler.call_err k') eqn:Hk'; [| done].
      rewrite <- app_assoc in Hsplit. simpl in Hsplit.
      assert (pre2 ++ k :: post = []) as Hnil
        by (eapply range_tasks_error_last; [exact Hsplit | congruence]).
      now destruct pre2. }
    split; [exact Hnone |].
    apply range_tasks_commit; [exact Hnodup | | exact Hnone].
    rewrite Hsplit. set_solver.
Qed.

(** C5.  When a [GetDemand] call of the sample returns an error, be it
    the first or the second after the first succeeded, the sample
    reports no change and the error, the map of tasks is exactly as it
    was, and the cycle returns the error without a scheduler call. *)
Theorem failed_sample_aborts (g : Main.Globals) (order : list string) c :
  let p1 := Main.p1TaskName g in
  let p2 := Main.p2TaskName g in
  forall e : string,
  (exists v i1, GetDemand (Handler.input c) p1 = ((v, Some e), i1)) \/
  (exists v1 i1 v2 i2,
     GetDemand (Handler.input c) p1 = ((v1, None), i1) /\
     GetDemand i1 p2 = ((v2, Some e), i2)) ->
  let sample := Handler.update g (Handler.input c) (Handler.ts c) in
  let cycle := Handler.handleDemandChange g order c in
  sample.1.1.1 = (false, Some e) /\
  sample.1.2 = Handler.ts c /\
  cycle.1.1 = Some e /\
  Handler.ts cycle.1.2 = Handler.ts c /\
  Handler.scaling_ready cycle.1.2 = Handler.scaling_ready c /\
  Handler.calls_of cycle.2 = [].
Proof.
  intros p1 p2 e Hfail sample cycle. subst sample cycle.
  unfold Handler.handleDemandChange.
  destruct (update_cases g (Handler.input c) (Handler.ts c))
    as [(v & e' & i1 & Hg1 & ->) | [(v1 & i1 & v2 & e' & i2 & Hg1 & Hg2 & ->)
                                  | (v1 & i1 & v2 & i2 & Hg1 & Hg2 & _)]];
    fold p1 p2 in Hg1; try fold p1 p2 in Hg2; simpl.
  - destruct Hfail as [(? & ? & Hf) | (? & ? & ? & ? & Hf & _)];
      rewrite Hg1 in Hf; simplify_eq; done.
  - destruct Hfail as [(? & ? & Hf) | (? & ? & ? & ? & Hf1 & Hf2)].
    + rewrite Hg1 in Hf. simplify_eq.
    + rewrite Hg1 in Hf1. simplify_eq. rewrite Hg2 in Hf2. simplify_eq. done.
  - destruct Hfail as [(? & ? & Hf) | (? & ? & ? & ? & Hf1 & Hf2)].
    + rewrite Hg1 in Hf. simplify_eq.
    + rewrite Hg1 in Hf1. simplify_eq. rewrite Hg2 in Hf2. simplify_eq.
Qed.

End HandlerLoop.

(** ** The loop of [main] *)

Section MainLoop.
Context {Sch I H : Type} `{!Main.Scheduler Sch, !Input I, !Main.Host H}.
Implicit Types d : Main.Demand (Sch := Sch) (I := I).
Implicit Types p : Main.Proc (Sch := Sch) (I := I) (H := H).

(** A sample equal to the stored demands changes nothing but the state
    of the source. *)
Lemma update_unchanged d (v : Z) (i' : I) :
  GetDemand (Main.input d) "priority1-demand" = ((v, None), i') ->
  Main.p1demand d = v ->
  Main.p2demand d = int_sub Main.const_maxcontainers v ->
  Main.update d = (false, Main.with_input d i', []).
Proof.
  intros Hget Hp1 Hp2. unfold Main.update. rewrite Hget.
  unfold Main.set, int_ne. destruct d as [s i p1 p2 r1 r2]. simpl in *.
  subst p1 p2. rewrite !Z.eqb_refl. simpl.
  destruct (v =? -1), (int_sub Main.const_maxcontainers v =? -1); reflexivity.
Qed.


(** The report issues no [StopStartNTasks] call, calls the scheduler
    only when sending state is switched on, and leaves the demands and
    the demand source alone. *)
Lemma sendStateToAPI_quiet (environ : Main.Environ) d (h : H) :
  Forall Main.quiet (Main.sendStateToAPI environ d h).2.
Proof.
  unfold Main.sendStateToAPI.
  destruct (Main.CountAllTasks (Main.sched d)) as [[[c1 c2] [e|]] s1]; simpl;
    [repeat constructor |].
  destruct (Main.Now_Unix h) as [now h1].
  destruct (Main.NewRequest_parse _); simpl; [repeat constructor |].
  destruct (Main.Do h1 _) as [[[r|] [e|]] h2]; simpl; try repeat constructor.
  destruct (Main.StatusCode r >? 204); simpl; repeat constructor.
Qed.

Lemma report_quiet (environ : Main.Environ) p :
  Forall Main.quiet (Main.report environ p).2 /\
  (Main.sendstate p <> "true" -> Main.calls_of (Main.report environ p).2 = []).
Proof.
  unfold Main.report. simpl.
  destruct (int_add (Main.sleepcount p) 1 =? Main.const_sendstate_sleeps);
    [| split; [repeat constructor | reflexivity]].
  destruct (String.eqb_spec (Main.sendstate p) "true") as [Heq | Hne];
    [| split; [repeat constructor | reflexivity]].
  split; [| congruence].
  pose proof (sendStateToAPI_quiet environ (Main.currentdemand p) (Main.host p))
    as Hq.
  destruct (Main.sendStateToAPI environ _ _) as [[[[err|] d'] h'] evs]; simpl in *.
  - constructor; [reflexivity |]. apply Forall_app. split; [exact Hq |].
    destruct err; repeat constructor.
  - constructor; [reflexivity | exact Hq].
Qed.

Lemma report_keeps (environ : Main.Environ) p p' :
  (Main.report environ p).1 = Returned p' ->
  Main.p1demand (Main.currentdemand p') = Main.p1demand (Main.currentdemand p) /\
  Main.p2demand (Main.currentdemand p') = Main.p2demand (Main.currentdemand p) /\
  Main.input (Main.currentdemand p') = Main.input (Main.currentdemand p) /\
  Main.sendstate p' = Main.sendstate p /\
  Main.globals p' = Main.globals p.
Proof.
  unfold Main.report. simpl.
  destruct (int_add (Main.sleepcount p) 1 =? Main.const_sendstate_sleeps);
    [| simpl; intros [= <-]; simpl; auto 10].
  destruct (String.eqb (Main.sendstate p) "true");
    [| simpl; intros [= <-]; simpl; auto 10].
  simpl.
  pose proof (sendStateToAPI_keeps_demand environ (Main.currentdemand p)
                (Main.host p)) as Hk.
  destruct (Main.sendStateToAPI environ _ _) as [[[[err|] d'] h'] evs];
    simpl in *; [| discriminate].
  intros [= <-]. simpl. destruct Hk as (? & ? & ? & _). auto 10.
Qed.


(** *** The first iteration *)

(** The loop body overwrites the flag before reading it. *)
Lemma reconcile_ignores_flag p (flag : bool) :
  Main.reconcile (Main.with_flag p flag) = Main.reconcile p.
Proof. reflexivity. Qed.

Lemma loop_body_ignores_flag (environ : Main.Environ) p (flag : bool) :
  Main.loop_body environ (Main.with_flag p flag) = Main.loop_body environ p.
Proof. unfold Main.loop_body. now rewrite reconcile_ignores_flag. Qed.

(** The iteration reconciles exactly when its sample reports a change. *)
Lemma reconcile_loud_iff p :
  Exists Main.loud (Main.reconcile p).2 <-> (Main.update (Main.currentdemand p)).1.1 = true.
Proof.
  unfold Main.reconcile, Main.update.
  destruct (GetDemand (Main.input (Main.currentdemand p)) _)
    as [[v [e|]] i'].
  - simpl. split; [| discriminate].
    intros Hex. apply Exists_cons in Hex as [Hl | Hex]; [discriminate |].
    now apply Exists_nil in Hex.
  - destruct (Main.set _ _ _) as [[old1 old2] d']. simpl.
    destruct (int_ne v old1 || int_ne _ old2) eqn:Hchange; simpl.
    + split; [done |]. intros _.
      destruct (Main.CountAllTasks (Main.sched d')) as [[[r1 r2] err] s1].
      unfold Main.handle. simpl.
      destruct (Main.StopStartNTasks s1 _ _ _ _) as [e1 s2]. simpl.
      destruct (Main.StopStartNTasks s2 _ _ _ _) as [e2 s3]. simpl.
      apply Exists_exists.
      exists (Main.Call
                (Main.CallStopStart (Main.p1TaskName (Main.globals p))
                   (Main.p1FamilyName (Main.globals p)) (Main.p1demand d')
                   r1 e1)).
      split; [set_solver | reflexivity].
    + split; [| discriminate]. intros Hex. now apply Exists_nil in Hex.
Qed.

(** When the loop is entered the flag is true and the stored demands are
    those a sample left on the seeded record. *)
Lemma main_start_entry (environ : Main.Environ) (b : Main.Backends) (h : H) p :
  (Main.main_start environ b h).1 = Some p ->
  Main.demandchangeflag p = true /\
  exists d0,
    Main.p1demand d0 = Main.const_p1demandstart /\
    Main.p2demand d0 = Main.const_p2demandstart /\
    Main.currentdemand p = (Main.update d0).1.2.
Proof.
  unfold Main.main_start.
  destruct (Main.pick_input b _) as [[di|] e1]; [| discriminate].
  destruct (Main.pick_scheduler b _) as [[s|] e2]; [| discriminate].
  simpl.
  destruct (Main.InitScheduler s _) as [[e|] s1]; [discriminate |].
  simpl.
  destruct (Main.InitScheduler s1 _) as [[e|] s2]; [discriminate |].
  simpl.
  match goal with
  | |- context [Main.update ?d] =>
      pose (d0 := d); change (Main.update d) with (Main.update d0);
      destruct (Main.update d0) as [[flag d1] e5] eqn:Hupd
  end.
  simpl. intros [= <-]. simpl. split; [reflexivity |].
  exists d0. rewrite Hupd. repeat split.
Qed.

(** C10 (amended).  The assignment of [true] before the loop is dead:
    the loop body behaves the same whatever the flag holds.  The stored
    demands at loop entry are those left by the sample taken before the
    loop on the record seeded with p1 = 5 and p2 = 4, and the first
    iteration reconciles exactly when its own sample succeeds and
    differs from these stored demands. *)
Theorem first_iteration_reconciles_iff (environ : Main.Environ)
    (b : Main.Backends) (h : H) p :
  (Main.main_start environ b h).1 = Some p ->
  let d := Main.currentdemand p in
  Main.demandchangeflag p = true /\
  (forall flag,
     Main.loop_body environ (Main.with_flag p flag) = Main.loop_body environ p) /\
  (exists d0,
     Main.p1demand d0 = Main.const_p1demandstart /\
     Main.p2demand d0 = Main.const_p2demandstart /\
     d = (Main.update d0).1.2) /\
  (forall v err i',
     GetDemand (Main.input d) "priority1-demand" = ((v, err), i') ->
     Exists Main.loud (Main.reconcile p).2 <->
     err = None /\
     (v <> Main.p1demand d \/
      int_sub Main.const_maxcontainers v <> Main.p2demand d)).
Proof.
  intros Hstart d.
  destruct (main_start_entry environ b h p Hstart) as [Hflag Hseed].
  split; [exact Hflag |].
  split; [intros flag; apply loop_body_ignores_flag |].
  split; [exact Hseed |].
  intros v err i' Hget. rewrite reconcile_loud_iff. fold d.
  destruct err as [e|].
  - rewrite (update_failed d v e i' Hget). simpl.
    split; [discriminate | intros [? _]; discriminate].
  - destruct (update_stores d v i' Hget) as (_ & _ & -> & _).
    rewrite orb_true_iff, !int_ne_spec. tauto.
Qed.

End MainLoop.

(** ** Order of the calls *)

Lemma range_order_by_dom (ts : gmap string Handler.Task) (order : list string) :
  NoDup order -> dom ts = list_to_set order -> Handler.range_order ts order.
Proof.
  intros Hnodup Hdom. split; [exact Hnodup |].
  intros k. rewrite <- elem_of_dom. rewrite Hdom.
  symmetry. apply elem_of_list_to_set.
Qed.

(** C6 (amended).  [Demand.handle] issues the priority-1 call and then
    the priority-2 call, always.  [handleDemandChange] issues its calls
    in the order in which the range loop visits the map of tasks, which
    Go leaves open: the names called are a prefix of that order. *)
Theorem reconcile_call_order {SchM SchH I : Type}
    `{!Main.Scheduler SchM, !Handler.Scheduler SchH, !Input I}
    (g : Main.Globals) :
  (forall d : Main.Demand (Sch := SchM) (I := I),
     exists r1 r2 : error,
       Main.calls_of (Main.handle g d).2 =
         [ Main.CallStopStart (Main.p1TaskName g) (Main.p1FamilyName g)
             (Main.p1demand d) (Main.p1requested d) r1;
           Main.CallStopStart (Main.p2TaskName g) (Main.p2FamilyName g)
             (Main.p2demand d) (Main.p2requested d) r2 ]) /\
  (forall (order : list string) (c : Handler.Ctx (Sch := SchH) (I := I)),
     Handler.range_order
       (Handler.update g (Handler.input c) (Handler.ts c)).1.2 order ->
     (Handler.call_name <$>
        Handler.calls_of (Handler.handleDemandChange g order c).2)
       `prefix_of` order).
Proof.
  split; [intros d; apply handle_calls |].
  intros order c [_ Hkeys].
  destruct (handleDemandChange_loop g order c)
    as [-> | (c0 & _ & Hts & _ & ->)].
  - apply prefix_nil.
  - apply range_tasks_prefix. intros n Hn. rewrite Hts. now apply Hkeys.
Qed.

Lemma reconcile_call_order_witness :
  let order := ["priority1-demand"; "priority2-demand"] in
  let c :=
    Fixtures.ctx (Fixtures.replay [7; 2]) {| Fixtures.results := [] |} true 5 4 in
  Handler.range_order
    (Handler.update Fixtures.names (Handler.input c) (Handler.ts c)).1.2 order /\
  (Handler.call_name <$>
     Handler.calls_of (Handler.handleDemandChange Fixtures.names order c).2)
    `prefix_of` order.
Proof.
  intros order c.
  assert (Horder : Handler.range_order
            (Handler.update Fixtures.names (Handler.input c) (Handler.ts c)).1.2
            order).
  { apply range_order_by_dom; apply (bool_decide_unpack _); vm_compute; exact I. }
  split; [exact Horder |].
  exact (proj2 (reconcile_call_order (SchM := Fixtures.MainSched) Fixtures.names)
           order c Horder).
Defined.

(** C6 as stated fails for the handler: the range loop may visit
    priority 2 first, and then its call is issued before priority 1's;
    two runs of the same cycle over the same state that are visited in
    different orders issue their calls in different orders. *)
Lemma range_order_decides_call_order :
  let c :=
    Fixtures.ctx (Fixtures.replay [7; 2]) {| Fixtures.results := [] |} true 5 4 in
  let ts' := (Handler.update Fixtures.names (Handler.input c) (Handler.ts c)).1.2 in
  let names_called order :=
    Handler.call_name <$>
      Handler.calls_of (Handler.handleDemandChange Fixtures.names order c).2 in
  (Handler.update Fixtures.names (Handler.input c) (Handler.ts c)).1.1.1
    = (true, None) /\
  Handler.range_order ts' ["priority2-demand"; "priority1-demand"] /\
  Handler.range_order ts' ["priority1-demand"; "priority2-demand"] /\
  names_called ["priority2-demand"; "priority1-demand"]
    = ["priority2-demand"; "priority1-demand"] /\
  names_called ["priority1-demand"; "priority2-demand"]
    <> names_called ["priority2-demand"; "priority1-demand"].
Proof.
  intros c ts' names_called.
  split; [vm_compute; reflexivity |].
  split; [apply range_order_by_dom; apply (bool_decide_unpack _);
          vm_compute; exact I |].
  split; [apply range_order_by_dom; apply (bool_decide_unpack _);
          vm_compute; exact I |].
  split; [vm_compute; reflexivity |].
  vm_compute. discriminate.
Qed.

(** ** Witnesses and counterexamples for the handler *)

Lemma single_flight_witness :
  let order := ["priority1-demand"; "priority2-demand"] in
  let c :=
    Fixtures.ctx (Fixtures.replay [7; 2]) {| Fixtures.results := [] |} false 5 4 in
  Handler.scaling_ready c = false /\
  (Handler.update Fixtures.names (Handler.input c) (Handler.ts c)).1.1.1
    = (true, None) /\
  Handler.calls_of (Handler.handleDemandChange Fixtures.names order c).2 = [].
Proof.
  intros order c.
  split; [reflexivity |]. split; [vm_compute; reflexivity |].
  exact (proj2 (single_flight Fixtures.names order c) eq_refl).
Defined.

Lemma failed_call_ends_cycle_witness :
  let order := ["priority1-demand"; "priority2-demand"] in
  let c :=
    Fixtures.ctx (Fixtures.replay [7; 2])
      {| Fixtures.results := [(true, Some "marathon unreachable")] |} true 5 4 in
  let k :=
    {| Handler.call_name := "priority1-demand";
       Handler.call_task := Fixtures.task "priority1-demand" 7;
       Handler.call_gate := true;
       Handler.call_task_after :=
         Fixtures.requested_as_demanded (Fixtures.task "priority1-demand" 7);
       Handler.call_ready := true;
       Handler.call_err := Some "marathon unreachable" |} in
  let cycle := Handler.handleDemandChange Fixtures.names order c in
  NoDup order /\
  Handler.calls_of cycle.2 = [] ++ k :: [] /\
  Handler.call_err k <> None /\
  cycle.1.1 = Some "marathon unreachable" /\
  forall k', k' ∈ Handler.calls_of cycle.2 ->
    Handler.call_name k' ∉ ["priority2-demand"].
Proof.
  intros order c k cycle.
  assert (Hnodup : NoDup order)
    by (apply (bool_decide_unpack _); vm_compute; exact I).
  assert (Hcalls : Handler.calls_of cycle.2 = [] ++ k :: [])
    by (vm_compute; reflexivity).
  assert (Herr : Handler.call_err k <> None) by discriminate.
  destruct (failed_call_ends_cycle Fixtures.names order c [] [] k
              Hnodup Hcalls Herr) as (_ & Hret & Hstop & _).
  split; [exact Hnodup |]. split; [exact Hcalls |]. split; [exact Herr |].
  split; [exact Hret |].
  intros k' Hk'. apply (Hstop [] ["priority2-demand"] eq_refl).
  fold cycle. rewrite Hcalls in Hk'. exact Hk'.
Defined.

(** C4 as stated fails on both paths.  [Demand.handle] calls priority 2
    after the priority-1 call returned an error.  In the handler, when
    the range loop visits priority 2 first, its call has been made by
    the time the priority-1 call fails. *)
Lemma priority2_attempted_despite_priority1_error :
  let d :=
    Fixtures.demand_of 5 4 (Fixtures.steady 5)
      (Fixtures.main_sched [Some "marathon unreachable"]) in
  let c :=
    Fixtures.ctx (Fixtures.replay [7; 2])
      {| Fixtures.results := [(true, None); (true, Some "marathon unreachable")] |}
      true 5 4 in
  let order := ["priority2-demand"; "priority1-demand"] in
  Main.calls_of (Main.handle Fixtures.names d).2 =
    [ Main.CallStopStart "priority1-demand" "" 5 0 (Some "marathon unreachable");
      Main.CallStopStart "priority2-demand" "" 4 0 None ] /\
  Handler.range_order
    (Handler.update Fixtures.names (Handler.input c) (Handler.ts c)).1.2 order /\
  (fun k => (Handler.call_name k, Handler.call_err k)) <$>
    Handler.calls_of (Handler.handleDemandChange Fixtures.names order c).2 =
    [ ("priority2-demand", None);
      ("priority1-demand", Some "marathon unreachable") ].
Proof.
  intros d c order.
  split; [vm_compute; reflexivity |].
  split; [apply range_order_by_dom; apply (bool_decide_unpack _);
          vm_compute; exact I |].
  vm_compute. reflexivity.
Qed.

Lemma failed_sample_aborts_witness :
  let order := ["priority1-demand"; "priority2-demand"] in
  let i :=
    {| Fixtures.answers := [(7, None); (0, Some "consul unreachable")];
       Fixtures.afterwards := (0, None) |} in
  let c :=
    {| Handler.input := i; Handler.sched := {| Fixtures.results := [] |};
       Handler.scaling_ready := true; Handler.ts := Fixtures.two_tasks 5 4 |} in
  let cycle := Handler.handleDemandChange Fixtures.names order c in
  (exists v1 i1 v2 i2,
     GetDemand i "priority1-demand" = ((v1, None), i1) /\
     GetDemand i1 "priority2-demand" = ((v2, Some "consul unreachable"), i2)) /\
  cycle.1.1 = Some "consul unreachable" /\
  Handler.ts cycle.1.2 = Fixtures.two_tasks 5 4 /\
  Handler.calls_of cycle.2 = [].
Proof.
  intros order i c cycle.
  assert (Hfail : exists v1 i1 v2 i2,
            GetDemand i "priority1-demand" = ((v1, None), i1) /\
            GetDemand i1 "priority2-demand"
              = ((v2, Some "consul unreachable"), i2)).
  { eexists 7, _, 0, _. split; reflexivity. }
  split; [exact Hfail |].
  destruct (failed_sample_aborts Fixtures.names order c "consul unreachable"
              (or_intror Hfail)) as (_ & _ & Hret & Hts & _ & Hcalls).
  split; [exact Hret |]. split; [exact Hts | exact Hcalls].
Defined.

(** ** Unchanged demand *)



(** ** The first iteration of the loop, on concrete runs *)

Lemma first_iteration_reconciles_iff_witness :
  let b := Fixtures.backends (Fixtures.replay [7; 7]) (Fixtures.main_sched []) in
  let p :=
    Fixtures.proc_of
      (Fixtures.demand_of 7 2 (Fixtures.replay [7]) (Fixtures.main_sched []))
      (Fixtures.wire []) in
  (Main.main_start Fixtures.no_env b (Fixtures.wire [])).1 = Some p /\
  (forall flag,
     Main.loop_body Fixtures.no_env (Main.with_flag p flag)
       = Main.loop_body Fixtures.no_env p) /\
  ~ Exists Main.loud (Main.reconcile p).2.
Proof.
  intros b p.
  assert (Hstart : (Main.main_start Fixtures.no_env b (Fixtures.wire [])).1
                   = Some p) by (vm_compute; reflexivity).
  destruct (first_iteration_reconciles_iff Fixtures.no_env b (Fixtures.wire [])
              p Hstart) as (_ & Hdead & _ & Hiff).
  split; [exact Hstart |]. split; [exact Hdead |].
  intros Hloud.
  destruct (proj1 (Hiff 7 None (Fixtures.replay []) eq_refl) Hloud)
    as [_ [Hne | Hne]]; now apply Hne.
Defined.

(** C10 as stated fails: the first sample inside the loop is compared
    with what the sample before the loop stored, not with the seeds.
    After a sample of 7 before the loop, a first sample of 5 inside it,
    equal to the seeds p1 = 5 and p2 = 4, sets off a reconciliation; a
    first sample of 7, which differs from the seeds, sets off none. *)
Lemma first_iteration_not_compared_with_seeds :
  let start answers :=
    (Main.main_start Fixtures.no_env
       (Fixtures.backends (Fixtures.replay answers) (Fixtures.main_sched []))
       (Fixtures.wire [])).1 in
  match start [7; 5] with
  | Some p =>
      (GetDemand (Main.input (Main.currentdemand p)) "priority1-demand").1
        = (Main.const_p1demandstart, None) /\
      int_sub Main.const_maxcontainers Main.const_p1demandstart
        = Main.const_p2demandstart /\
      Main.calls_of (Main.reconcile p).2 =
        [ Main.CallCount None;
          Main.CallStopStart "priority1-demand" "" 5 0 None;
          Main.CallStopStart "priority2-demand" "" 4 0 None ]
  | None => False
  end /\
  match start [7; 7] with
  | Some p =>
      (GetDemand (Main.input (Main.currentdemand p)) "priority1-demand").1
        = (7, None) /\
      7 <> Main.const_p1demandstart /\
      Main.calls_of (Main.reconcile p).2 = []
  | None => False
  end.
Proof.
  split; vm_compute; repeat split; congruence.
Qed.

(** ** A failed sample in the loop of [main] *)

Section MainFailedSample.
Context {Sch I H : Type} `{!Main.Scheduler Sch, !Input I, !Main.Host H}.
Implicit Types p : Main.Proc (Sch := Sch) (I := I) (H := H).

(** When the demand query fails the iteration stores nothing, reports no
    change and calls the scheduler for nothing. *)
Lemma reconcile_failed_sample p (v : Z) (e : string) (i' : I) :
  GetDemand (Main.input (Main.currentdemand p)) "priority1-demand"
    = ((v, Some e), i') ->
  let p' := (Main.reconcile p).1 in
  Main.demandchangeflag p' = false /\
  Main.p1demand (Main.currentdemand p') = Main.p1demand (Main.currentdemand p) /\
  Main.p2demand (Main.currentdemand p') = Main.p2demand (Main.currentdemand p) /\
  Main.calls_of (Main.reconcile p).2 = [].
Proof.
  intros Hget. unfold Main.reconcile.
  rewrite (update_failed _ v e i' Hget). simpl. auto.
Qed.

End MainFailedSample.

(** * Further properties of main.go *)

Section MainRecord.
Context {Sch I : Type} `{!Main.Scheduler Sch, !Input I}.
Implicit Types d : Main.Demand (Sch := Sch) (I := I).

(** X1.  [set] hands back what [get] gave before it, [get] gives back
    what was set, and the next [set] hands back what this one stored,
    for values other than -1. *)
Theorem set_get_roundtrip d (a b a' b' : Z) :
  a <> -1 -> b <> -1 ->
  (Main.set d a b).1 = Main.get d /\
  Main.get (Main.set d a b).2 = (a, b) /\
  (Main.set (Main.set d a b).2 a' b').1 = (a, b).
Proof.
  intros Ha Hb. unfold Main.set, Main.get, int_ne.
  destruct (Z.eqb_spec a (-1)); [done |].
  destruct (Z.eqb_spec b (-1)); [done |].
  simpl. repeat split.
Qed.

(** X2.  [handle] logs both failures, with the priority-1 error, exactly
    when the priority-1 call failed, and nothing otherwise, whatever the
    priority-2 call returned; it changes no field of the record but the
    scheduler. *)
Theorem handle_failure_logs (g : Main.Globals) d :
  let r := Main.handle g d in
  Main.logs_of r.2 =
    match r.1.1 with
    | Some e => [Main.FailedStartPriority1 e; Main.FailedStartPriority2 e]
    | None => []
    end /\
  Main.p1demand r.1.2 = Main.p1demand d /\
  Main.p2demand r.1.2 = Main.p2demand d /\
  Main.p1requested r.1.2 = Main.p1requested d /\
  Main.p2requested r.1.2 = Main.p2requested d /\
  Main.input r.1.2 = Main.input d.
Proof.
  unfold Main.handle.
  destruct (Main.StopStartNTasks (Main.sched d) _ _ _ _) as [[e|] s1]; simpl;
    destruct (Main.StopStartNTasks s1 _ _ _ _) as [r2 s2]; simpl; auto 10.
Qed.

(** X3.  A sample that repeats the one before it reports no change and
    stores nothing new, provided neither it nor its complement is -1. *)
Theorem update_repeated_sample d (raw : Z) (i1 i2 : I) :
  GetDemand (Main.input d) "priority1-demand" = ((raw, None), i1) ->
  GetDemand i1 "priority1-demand" = ((raw, None), i2) ->
  raw <> -1 ->
  int_sub Main.const_maxcontainers raw <> -1 ->
  let d1 := (Main.update d).1.2 in
  Main.update d1 = (false, Main.with_input d1 i2, []).
Proof.
  intros Hg1 Hg2 Hraw Hcomp d1.
  destruct (update_stores d raw i1 Hg1) as (Hp1 & Hp2 & _ & Hin & _).
  fold d1 in Hp1, Hp2, Hin.
  destruct (Z.eqb_spec raw (-1)); [done |].
  destruct (Z.eqb_spec (int_sub Main.const_maxcontainers raw) (-1)); [done |].
  apply (update_unchanged d1 raw i2); [now rewrite Hin | exact Hp1 | exact Hp2].
Qed.

(** X4.  A sample whose complement to the capacity is -1 never gets the
    complement stored: it reports a change, keeps the old p2, and
    reports a change again when it repeats. *)
Theorem update_complement_never_stored d (raw : Z) (i1 i2 : I) :
  GetDemand (Main.input d) "priority1-demand" = ((raw, None), i1) ->
  GetDemand i1 "priority1-demand" = ((raw, None), i2) ->
  int_sub Main.const_maxcontainers raw = -1 ->
  Main.p2demand d <> -1 ->
  let d1 := (Main.update d).1.2 in
  let d2 := (Main.update d1).1.2 in
  (Main.update d).1.1 = true /\ (Main.update d1).1.1 = true /\
  Main.p1demand d2 = raw /\ Main.p2demand d2 = Main.p2demand d.
Proof.
  intros Hg1 Hg2 Hcomp Hold d1 d2.
  assert (Hraw : raw <> -1) by (intros ->; vm_compute in Hcomp; discriminate).
  destruct (update_stores d raw i1 Hg1) as (Hp1 & Hp2 & Hch & Hin & _).
  fold d1 in Hp1, Hp2, Hin. rewrite Hcomp in Hp2, Hch. simpl in Hp2.
  assert (Hg2' : GetDemand (Main.input d1) "priority1-demand"
                 = ((raw, None), i2)) by now rewrite Hin.
  destruct (update_stores d1 raw i2 Hg2') as (Hq1 & Hq2 & Hch2 & _).
  fold d2 in Hq1, Hq2. rewrite Hcomp in Hq2, Hch2. simpl in Hq2.
  destruct (Z.eqb_spec raw (-1)); [done |].
  assert (Hne : forall x, x <> -1 -> int_ne (-1) x = true)
    by (intros x Hx; apply int_ne_spec; congruence).
  split; [rewrite Hch, (Hne _ Hold); apply orb_true_r |].
  split; [rewrite Hch2, Hp2, (Hne _ Hold); apply orb_true_r |].
  split; congruence.
Qed.

End MainRecord.

Lemma set_get_roundtrip_witness :
  let d := Fixtures.demand_of 5 4 (Fixtures.steady 5) (Fixtures.main_sched []) in
  7 <> -1 /\ 2 <> -1 /\
  (Main.set d 7 2).1 = (5, 4) /\
  Main.get (Main.set d 7 2).2 = (7, 2) /\
  (Main.set (Main.set d 7 2).2 3 6).1 = (7, 2).
Proof.
  intros d.
  assert (H7 : 7 <> -1) by discriminate.
  assert (H2 : 2 <> -1) by discriminate.
  split; [exact H7 |]. split; [exact H2 |].
  exact (set_get_roundtrip d 7 2 3 6 H7 H2).
Defined.

Lemma update_repeated_sample_witness :
  let d := Fixtures.demand_of 5 4 (Fixtures.replay [7; 7]) (Fixtures.main_sched []) in
  let d1 := (Main.update d).1.2 in
  GetDemand (Main.input d) "priority1-demand" = ((7, None), Fixtures.replay [7]) /\
  GetDemand (Fixtures.replay [7]) "priority1-demand" = ((7, None), Fixtures.replay []) /\
  7 <> -1 /\ int_sub Main.const_maxcontainers 7 <> -1 /\
  Main.update d1 = (false, Main.with_input d1 (Fixtures.replay []), []).
Proof.
  intros d d1.
  assert (H7 : 7 <> -1) by discriminate.
  assert (Hc : int_sub Main.const_maxcontainers 7 <> -1)
    by (vm_compute; discriminate).
  split; [reflexivity |]. split; [reflexivity |].
  split; [exact H7 |]. split; [exact Hc |].
  exact (update_repeated_sample d 7 (Fixtures.replay [7]) (Fixtures.replay [])
           eq_refl eq_refl H7 Hc).
Defined.

Lemma update_complement_never_stored_witness :
  let d := Fixtures.demand_of 5 4 (Fixtures.replay [10; 10]) (Fixtures.main_sched []) in
  let d1 := (Main.update d).1.2 in
  let d2 := (Main.update d1).1.2 in
  GetDemand (Main.input d) "priority1-demand" = ((10, None), Fixtures.replay [10]) /\
  GetDemand (Fixtures.replay [10]) "priority1-demand" = ((10, None), Fixtures.replay []) /\
  int_sub Main.const_maxcontainers 10 = -1 /\ Main.p2demand d <> -1 /\
  (Main.update d).1.1 = true /\ (Main.update d1).1.1 = true /\
  Main.p1demand d2 = 10 /\ Main.p2demand d2 = 4.
Proof.
  intros d d1 d2.
  assert (Hc : int_sub Main.const_maxcontainers 10 = -1) by reflexivity.
  assert (Hp : Main.p2demand d <> -1) by discriminate.
  split; [reflexivity |]. split; [reflexivity |].
  split; [exact Hc |]. split; [exact Hp |].
  exact (update_complement_never_stored d 10 (Fixtures.replay [10])
           (Fixtures.replay []) eq_refl eq_refl Hc Hp).
Defined.

Section MainReporter.
Context {Sch I H : Type} `{!Main.Scheduler Sch, !Input I, !Main.Host H}.
Implicit Types d : Main.Demand (Sch := Sch) (I := I).
Implicit Types p : Main.Proc (Sch := Sch) (I := I) (H := H).

(** X5.  When the task count fails, [sendStateToAPI] returns that error
    under its own prefix without reading the clock or sending anything:
    the host is as it was and the count is the only event. *)
Theorem sendStateToAPI_count_failure (environ : Main.Environ) d (h : H)
    (c1 c2 : Z) (e : string) (s1 : Sch) :
  Main.CountAllTasks (Main.sched d) = ((c1, c2, Some e), s1) ->
  Main.sendStateToAPI environ d h =
    (Returned (Some ("Failed to get state err " +:+ e)),
     Main.with_sched d s1, h, [Main.Call (Main.CallCount (Some e))]).
Proof. intros Hcount. unfold Main.sendStateToAPI. now rewrite Hcount. Qed.

(** X6.  With the tasks counted, [sendStateToAPI] sends one request: a
    PUT of JSON to the base URL followed by /metrics/5k5gk, carrying the
    clock's time, the stored priority-1 demand and the two running
    counts.  What it returns is decided by the answer to that request
    alone: a panic on a missing response, else the transport error, else
    an error for a status above 204, else nil. *)
Theorem sendStateToAPI_request (environ : Main.Environ) d (h h1 h2 : H)
    (c1 c2 now : Z) (s1 : Sch) (resp : option Main.Response) (err : error) :
  let url := Main.getBaseF12APIUrl environ +:+ "/metrics/5k5gk" in
  let req :=
    {| Main.Method := "PUT"; Main.URL := url;
       Main.ContentType := "application/json";
       Main.Body :=
         {| Main.CreatedAt := now;
            Main.Priority1Requested := Main.p1demand d;
            Main.Priority1Running := c1;
            Main.Priority2Running := c2 |} |} in
  Main.CountAllTasks (Main.sched d) = ((c1, c2, None), s1) ->
  Main.Now_Unix h = (now, h1) ->
  Main.NewRequest_parse url = None ->
  Main.Do h1 req = ((resp, err), h2) ->
  Main.sendStateToAPI environ d h =
    (match resp, err with
     | None, _ => Panicked
     | Some _, Some e => Returned (Some ("API state err " +:+ e))
     | Some r, None =>
         if Main.StatusCode r >? 204
         then Returned (Some ("error response from API. " +:+ Main.Status r))
         else Returned None
     end,
     Main.with_sched d s1, h2,
     [Main.Call (Main.CallCount None); Main.Log (Main.ApiPut url)]).
Proof.
  intros url req Hcount Hnow Hparse Hdo. unfold Main.sendStateToAPI.
  rewrite Hcount. simpl.
  change (Main.getBaseF12APIUrl environ +:+ "/metrics/" +:+ "5k5gk") with url.
  rewrite Hnow, Hparse. fold req. rewrite Hdo.
  destruct resp as [r|], err as [e|]; try reflexivity.
  simpl. destruct (Main.StatusCode r >? 204); reflexivity.
Qed.

End MainReporter.

(** X7.  [getEnvOrDefault] never returns the empty string for a
    non-empty default: it returns the variable when that is non-empty
    and the default otherwise, so a variable set to the empty string
    counts as unset.  The base URL of the API is [getEnvOrDefault] at
    API_ADDRESS and so is never empty. *)
Theorem getEnvOrDefault_never_empty (environ : Main.Environ)
    (name def : string) :
  def <> "" ->
  Main.getEnvOrDefault environ name def <> "" /\
  (Main.getEnvOrDefault environ name def = environ name \/
   environ name = "" /\ Main.getEnvOrDefault environ name def = def) /\
  Main.getBaseF12APIUrl environ =
    Main.getEnvOrDefault environ "API_ADDRESS"
      "https://force12-windtunnel.herokuapp.com" /\
  Main.getBaseF12APIUrl environ <> "".
Proof.
  intros Hdef. unfold Main.getBaseF12APIUrl, Main.getEnvOrDefault.
  split; [destruct (String.eqb_spec (environ name) ""); done |].
  split; [destruct (String.eqb_spec (environ name) ""); auto |].
  split; [reflexivity |].
  destruct (String.eqb_spec (environ "API_ADDRESS") ""); [discriminate | done].
Qed.

Lemma getEnvOrDefault_never_empty_witness :
  let environ : Main.Environ :=
    fun name => if String.eqb name "F12_SCHEDULER" then "MESOS" else "" in
  "COMPOSE" <> "" /\
  Main.getEnvOrDefault environ "F12_SCHEDULER" "COMPOSE" <> "" /\
  Main.getBaseF12APIUrl environ <> "".
Proof.
  intros environ.
  assert (Hdef : "COMPOSE" <> "") by discriminate.
  destruct (getEnvOrDefault_never_empty environ "F12_SCHEDULER" "COMPOSE" Hdef)
    as (Hne & _ & _ & Hurl).
  split; [exact Hdef |]. split; [exact Hne | exact Hurl].
Defined.

Lemma sendStateToAPI_count_failure_witness :
  let s :=
    {| Fixtures.stopstart_results := [];
       Fixtures.counted := (0, 0, Some "marathon unreachable") |} in
  let d := Fixtures.demand_of 5 4 (Fixtures.steady 5) s in
  Main.CountAllTasks (Main.sched d) = ((0, 0, Some "marathon unreachable"), s) /\
  (Main.sendStateToAPI Fixtures.no_env d (Fixtures.wire [])).1.1.1 =
    Returned (Some "Failed to get state err marathon unreachable") /\
  (Main.sendStateToAPI Fixtures.no_env d (Fixtures.wire [])).1.2 = Fixtures.wire [].
Proof.
  intros s d.
  assert (Hcount : Main.CountAllTasks (Main.sched d)
                   = ((0, 0, Some "marathon unreachable"), s)) by reflexivity.
  split; [exact Hcount |].
  rewrite (sendStateToAPI_count_failure Fixtures.no_env d (Fixtures.wire [])
             0 0 "marathon unreachable" s Hcount).
  split; reflexivity.
Defined.

Lemma sendStateToAPI_request_witness :
  let d := Fixtures.demand_of 5 4 (Fixtures.steady 5) (Fixtures.main_sched []) in
  let r := {| Main.StatusCode := 204; Main.Status := "204 No Content" |} in
  let h := Fixtures.wire [(Some r, None)] in
  let url := "https://force12-windtunnel.herokuapp.com/metrics/5k5gk" in
  let req :=
    {| Main.Method := "PUT"; Main.URL := url;
       Main.ContentType := "application/json";
       Main.Body :=
         {| Main.CreatedAt := 0; Main.Priority1Requested := 5;
            Main.Priority1Running := 0; Main.Priority2Running := 0 |} |} in
  Main.CountAllTasks (Main.sched d) = ((0, 0, None), Fixtures.main_sched []) /\
  Main.Now_Unix h = (0, h) /\
  Main.NewRequest_parse (H := Fixtures.Wire) url = None /\
  Main.Do h req = ((Some r, None), Fixtures.wire []) /\
  Main.sendStateToAPI Fixtures.no_env d h =
    (Returned None, d, Fixtures.wire [],
     [Main.Call (Main.CallCount None); Main.Log (Main.ApiPut url)]).
Proof.
  intros d r h url req.
  split; [reflexivity |]. split; [reflexivity |]. split; [reflexivity |].
  split; [reflexivity |].
  exact (sendStateToAPI_request Fixtures.no_env d h h (Fixtures.wire []) 0 0 0
           (Fixtures.main_sched []) (Some r) None eq_refl eq_refl eq_refl eq_refl).
Defined.

(** ** [main] before the loop *)

Section MainStart.
Context {Sch I H : Type} `{!Main.Scheduler Sch, !Input I, !Main.Host H}.
Implicit Types p : Main.Proc (Sch := Sch) (I := I) (H := H).

Lemma main_calls_app (e1 e2 : list Main.Event) :
  Main.calls_of (e1 ++ e2) = Main.calls_of e1 ++ Main.calls_of e2.
Proof. apply omap_app. Qed.

Lemma main_calls_cons (ev : Main.Event) (evs : list Main.Event) :
  Main.calls_of (ev :: evs) =
    match ev with
    | Main.Call c => c :: Main.calls_of evs
    | _ => Main.calls_of evs
    end.
Proof. now destruct ev. Qed.

Lemma main_sleeps_app (e1 e2 : list Main.Event) :
  Main.sleeps_of (e1 ++ e2) = Main.sleeps_of e1 ++ Main.sleeps_of e2.
Proof. apply omap_app. Qed.

Lemma update_calls (d : Main.Demand (Sch := Sch) (I := I)) :
  Main.calls_of (Main.update d).2 = [] /\ Main.sleeps_of (Main.update d).2 = [].
Proof.
  unfold Main.update.
  destruct (GetDemand (Main.input d) _) as [[v [e|]] i']; [done |].
  destruct (Main.set _ _ _) as [[o1 o2] d']. simpl.
  now destruct (_ || _).
Qed.

Lemma pick_input_calls (b : Main.Backends (Sch := Sch) (I := I)) (t : string) :
  Main.calls_of (Main.pick_input b t).2 = [] /\
  Main.sleeps_of (Main.pick_input b t).2 = [].
Proof.
  unfold Main.pick_input.
  destruct (String.eqb t "CONSUL"); [done |]. now destruct (String.eqb t "RNG").
Qed.


(** X8.  A demand model other than CONSUL and RNG, or a scheduler other
    than MESOS and COMPOSE, makes [main] return before the loop: it
    calls no scheduler and never sleeps. *)
Theorem main_bad_configuration (environ : Main.Environ) (b : Main.Backends)
    (h : H) (n : nat) (v : string) :
  v <> "" ->
  (environ "F12_DEMAND_MODEL" = v /\ v <> "CONSUL" /\ v <> "RNG") \/
  (environ "F12_SCHEDULER" = v /\ v <> "MESOS" /\ v <> "COMPOSE") ->
  let r := Main.main environ b h n in
  r.1 = Returned None /\ Main.calls_of r.2 = [] /\ Main.sleeps_of r.2 = [].
Proof.
  intros Hv Hbad. unfold Main.main, Main.main_start.
  assert (Hdef : forall name def, environ name = v ->
                   Main.getEnvOrDefault environ name def = v).
  { intros name def Hn. unfold Main.getEnvOrDefault. rewrite Hn.
    now destruct (String.eqb_spec v ""). }
  pose proof (pick_input_calls b
                (Main.getEnvOrDefault environ "F12_DEMAND_MODEL" "RNG"))
    as [Hic His].
  destruct Hbad as [(Hm & Hc & Hr) | (Hs & Hc & Hr)].
  - rewrite (Hdef _ _ Hm). unfold Main.pick_input.
    destruct (String.eqb_spec v "CONSUL"); [done |].
    destruct (String.eqb_spec v "RNG"); [done |].
    simpl. repeat split.
  - rewrite (Hdef _ _ Hs).
    destruct (Main.pick_input b _) as [[di|] e1]; simpl in *; [| done].
    unfold Main.pick_scheduler.
    destruct (String.eqb_spec v "MESOS"); [done |].
    destruct (String.eqb_spec v "COMPOSE"); [done |].
    simpl. unfold Main.calls_of, Main.sleeps_of in *.
    rewrite !omap_app, Hic, His. repeat split.
Qed.


End MainStart.

Lemma main_bad_configuration_witness :
  let environ : Main.Environ :=
    fun name => if String.eqb name "F12_DEMAND_MODEL" then "KAFKA" else "" in
  let b := Fixtures.backends (Fixtures.steady 5) (Fixtures.main_sched []) in
  let r := Main.main environ b (Fixtures.wire []) 3 in
  "KAFKA" <> "" /\
  (environ "F12_DEMAND_MODEL" = "KAFKA" /\ "KAFKA" <> "CONSUL" /\ "KAFKA" <> "RNG") /\
  r.1 = Returned None /\ Main.calls_of r.2 = [] /\ Main.sleeps_of r.2 = [].
Proof.
  intros environ b r.
  assert (Hv : "KAFKA" <> "") by discriminate.
  assert (Hbad : environ "F12_DEMAND_MODEL" = "KAFKA" /\
                 "KAFKA" <> "CONSUL" /\ "KAFKA" <> "RNG")
    by (split; [reflexivity | split; discriminate]).
  split; [exact Hv |]. split; [exact Hbad |].
  exact (main_bad_configuration environ b (Fixtures.wire []) 3 "KAFKA" Hv
           (or_introl Hbad)).
Defined.

(** ** The iterations of the loop *)

Section MainTicks.
Context {Sch I H : Type} `{!Main.Scheduler Sch, !Input I, !Main.Host H}.
Implicit Types d : Main.Demand (Sch := Sch) (I := I).
Implicit Types p : Main.Proc (Sch := Sch) (I := I) (H := H).

Lemma handle_sleeps (g : Main.Globals) d : Main.sleeps_of (Main.handle g d).2 = [].
Proof.
  unfold Main.handle.
  destruct (Main.StopStartNTasks (Main.sched d) _ _ _ _) as [[e|] s1]; simpl;
    destruct (Main.StopStartNTasks s1 _ _ _ _) as [r2 s2]; reflexivity.
Qed.

Lemma sendStateToAPI_events (environ : Main.Environ) d (h : H) :
  Main.sleeps_of (Main.sendStateToAPI environ d h).2 = [] /\
  Main.calls_of (Main.sendStateToAPI environ d h).2 <> [].
Proof.
  unfold Main.sendStateToAPI.
  destruct (Main.CountAllTasks (Main.sched d)) as [[[c1 c2] [e|]] s1]; simpl;
    [done |].
  destruct (Main.Now_Unix h) as [now h1].
  destruct (Main.NewRequest_parse _); simpl; [done |].
  destruct (Main.Do h1 _) as [[[r|] [e|]] h2]; simpl; try done.
  now destruct (Main.StatusCode r >? 204).
Qed.

(** The reconciling half of an iteration touches neither the counter of
    sleeps, nor the switch for sending state, nor the host. *)
Lemma main_sleeps_cons (ev : Main.Event) (evs : list Main.Event) :
  Main.sleeps_of (ev :: evs) =
    match ev with
    | Main.Sleep ms => ms :: Main.sleeps_of evs
    | _ => Main.sleeps_of evs
    end.
Proof. now destruct ev. Qed.

Lemma reconcile_frame p :
  let p' := (Main.reconcile p).1 in
  Main.sleepcount p' = Main.sleepcount p /\
  Main.sendstate p' = Main.sendstate p /\
  Main.host p' = Main.host p /\
  Main.globals p' = Main.globals p /\
  Main.sleeps_of (Main.reconcile p).2 = [].
Proof.
  unfold Main.reconcile.
  pose proof (update_calls (Main.currentdemand p)) as [_ Hus].
  destruct (Main.update (Main.currentdemand p)) as [[[|] d1] e1]; simpl in Hus;
    [| simpl; auto].
  destruct (Main.CountAllTasks (Main.sched d1)) as [[[r1 r2] err] s1].
  match goal with
  | |- context [Main.handle ?g ?d] =>
      pose proof (handle_sleeps g d) as Hhs;
      destruct (Main.handle g d) as [[herr d2] e3]
  end.
  simpl in Hhs. repeat (split; [reflexivity |]). cbn [snd].
  rewrite !main_sleeps_app, main_sleeps_cons, Hus, Hhs.
  now destruct err, herr.
Qed.

Lemma report_sleeps (environ : Main.Environ) p :
  Main.sleeps_of (Main.report environ p).2 = [Main.const_sleep].
Proof.
  unfold Main.report. simpl.
  destruct (int_add (Main.sleepcount p) 1 =? Main.const_sendstate_sleeps);
    [| reflexivity].
  destruct (String.eqb (Main.sendstate p) "true"); [| reflexivity].
  pose proof (sendStateToAPI_events environ (Main.currentdemand p) (Main.host p))
    as [Hs _].
  destruct (Main.sendStateToAPI environ _ _) as [[[[err|] d'] h'] evs];
    simpl in *.
  - rewrite (main_sleeps_app evs). rewrite Hs. now destruct err.
  - now rewrite Hs.
Qed.

Lemma int_add_small (a : Z) :
  0 <= a < Main.const_sendstate_sleeps -> int_add a 1 = a + 1.
Proof.
  unfold Main.const_sendstate_sleeps. intros Ha.
  apply wrap_id. unfold is_int, int_bits. lia.
Qed.

Lemma report_sleepcount (environ : Main.Environ) p p' :
  0 <= Main.sleepcount p < Main.const_sendstate_sleeps ->
  (Main.report environ p).1 = Returned p' ->
  Main.sleepcount p' =
    (Main.sleepcount p + 1) mod Main.const_sendstate_sleeps.
Proof.
  intros Hsc. unfold Main.report. simpl.
  rewrite (int_add_small _ Hsc).
  unfold Main.const_sendstate_sleeps in *.
  destruct (Z.eqb_spec (Main.sleepcount p + 1) 5) as [H5 | H5].
  - destruct (String.eqb (Main.sendstate p) "true").
    + destruct (Main.sendStateToAPI environ _ _) as [[[[err|] d'] h'] evs];
        simpl; [| discriminate].
      intros [= <-]. simpl. rewrite H5. reflexivity.
    + simpl. intros [= <-]. simpl. rewrite H5. reflexivity.
  - simpl. intros [= <-]. simpl. rewrite Z.mod_small; lia.
Qed.

(** X10.  The counter of sleeps stays within 0 .. 4: after [n]
    iterations it is the starting count plus [n], modulo 5, and the
    loop has slept [n] times, 100 ms each. *)
Theorem loop_sleepcount (environ : Main.Environ) (n : nat) p p' :
  0 <= Main.sleepcount p < Main.const_sendstate_sleeps ->
  (Main.loop environ n p).1 = Returned p' ->
  Main.sleepcount p' =
    (Main.sleepcount p + Z.of_nat n) mod Main.const_sendstate_sleeps /\
  Main.sleeps_of (Main.loop environ n p).2 = replicate n Main.const_sleep.
Proof.
  revert p. induction n as [|n IH]; intros p Hsc.
  - simpl. intros [= <-]. rewrite Z.add_0_r.
    split; [| reflexivity]. symmetry. now apply Z.mod_small.
  - simpl. unfold Main.loop_body.
    destruct (reconcile_frame p) as (Hk & _ & _ & _ & Hrs).
    destruct (Main.reconcile p) as [p1 e1]. simpl in *.
    pose proof (report_sleeps environ p1) as Hps.
    pose proof (report_sleepcount environ p1) as Hpc.
    destruct (Main.report environ p1) as [[p2|] e2]; simpl in *;
      [| discriminate].
    specialize (Hpc p2). rewrite Hk in Hpc. specialize (Hpc Hsc eq_refl).
    specialize (IH p2).
    destruct (Main.loop environ n p2) as [r e3]. simpl in *.
    intros Hr.
    destruct IH as [IHc IHs]; [| exact Hr |].
    { rewrite Hpc. apply Z.mod_pos_bound. unfold Main.const_sendstate_sleeps. lia. }
    split.
    + rewrite IHc, Hpc. rewrite Zplus_mod_idemp_l. f_equal. lia.
    + rewrite !main_sleeps_app, Hrs, Hps, IHs. reflexivity.
Qed.

(** X11.  An iteration reports to the API, and so counts the tasks,
    exactly when it is the fifth since the last report and sending state
    is switched on. *)
Theorem report_cadence (environ : Main.Environ) p :
  0 <= Main.sleepcount p < Main.const_sendstate_sleeps ->
  Main.calls_of (Main.report environ p).2 <> [] <->
  Main.sleepcount p = 4 /\ Main.sendstate p = "true".
Proof.
  intros Hsc. unfold Main.report. simpl.
  rewrite (int_add_small _ Hsc). unfold Main.const_sendstate_sleeps in *.
  destruct (Z.eqb_spec (Main.sleepcount p + 1) 5) as [H5 | H5].
  - destruct (String.eqb_spec (Main.sendstate p) "true") as [Hon | Hoff].
    + split; [intros _; split; [lia | exact Hon] |]. intros _.
      pose proof (sendStateToAPI_events environ (Main.currentdemand p)
                    (Main.host p)) as [_ Hc].
      destruct (Main.sendStateToAPI environ _ _) as [[[[err|] d'] h'] evs];
        simpl in Hc; cbn [fst snd].
      * rewrite main_calls_cons, main_calls_app.
        intros Hnil. apply app_eq_nil in Hnil as [Hnil _]. done.
      * now rewrite main_calls_cons.
    + simpl. split; [done | intros [_ ?]; done].
  - simpl. split; [done | intros [? _]; lia].
Qed.

Lemma report_off (environ : Main.Environ) p :
  Main.sendstate p <> "true" ->
  exists p',
    (Main.report environ p).1 = Returned p' /\
    Main.host p' = Main.host p /\ Main.sendstate p' = Main.sendstate p.
Proof.
  intros Hoff. unfold Main.report. simpl.
  destruct (_ =? _); [| eexists; repeat split].
  destruct (String.eqb_spec (Main.sendstate p) "true"); [done |].
  eexists; repeat split.
Qed.

(** X12.  With sending state switched off the loop never panics and
    never touches the host, however long it runs. *)
Theorem loop_sendstate_off (environ : Main.Environ) (n : nat) p :
  Main.sendstate p <> "true" ->
  exists p',
    (Main.loop environ n p).1 = Returned p' /\
    Main.host p' = Main.host p /\ Main.sendstate p' = Main.sendstate p.
Proof.
  revert p. induction n as [|n IH]; intros p Hoff.
  - exists p. repeat split.
  - simpl. unfold Main.loop_body.
    destruct (reconcile_frame p) as (_ & Hks & Hkh & _ & _).
    destruct (Main.reconcile p) as [p1 e1]. simpl in *.
    destruct (report_off environ p1) as (p2 & Hr2 & Hh2 & Hs2); [congruence |].
    destruct (Main.report environ p1) as [r2 e2]. simpl in Hr2. subst r2.
    destruct (IH p2) as (p' & Hr & Hh & Hs); [congruence |].
    destruct (Main.loop environ n p2) as [r e3]. simpl in *.
    exists p'. split; [exact Hr |]. split; congruence.
Qed.

End MainTicks.

Lemma loop_sleepcount_witness :
  let p :=
    Fixtures.proc_of
      (Fixtures.demand_of 5 4 (Fixtures.steady 5) (Fixtures.main_sched []))
      (Fixtures.wire []) in
  exists p',
    0 <= Main.sleepcount p < Main.const_sendstate_sleeps /\
    (Main.loop Fixtures.no_env 7 p).1 = Returned p' /\
    Main.sleepcount p' = 2 /\
    Main.sleeps_of (Main.loop Fixtures.no_env 7 p).2 = replicate 7 100.
Proof.
  intros p.
  assert (Hsc : 0 <= Main.sleepcount p < Main.const_sendstate_sleeps)
    by (simpl; unfold Main.const_sendstate_sleeps; lia).
  destruct (Main.loop Fixtures.no_env 7 p).1 as [p'|] eqn:Hrun;
    [| vm_compute in Hrun; discriminate].
  exists p'. split; [exact Hsc |]. split; [reflexivity |].
  exact (loop_sleepcount Fixtures.no_env 7 p p' Hsc Hrun).
Defined.

Lemma report_cadence_witness :
  let p :=
    Main.with_sleepcount
      (Fixtures.proc_of
         (Fixtures.demand_of 5 4 (Fixtures.steady 5) (Fixtures.main_sched []))
         (Fixtures.wire [])) 4 in
  0 <= Main.sleepcount p < Main.const_sendstate_sleeps /\
  Main.sleepcount p = 4 /\ Main.sendstate p = "true" /\
  Main.calls_of (Main.report Fixtures.no_env p).2 <> [].
Proof.
  intros p.
  assert (Hsc : 0 <= Main.sleepcount p < Main.const_sendstate_sleeps)
    by (simpl; unfold Main.const_sendstate_sleeps; lia).
  split; [exact Hsc |]. split; [reflexivity |]. split; [reflexivity |].
  exact (proj2 (report_cadence Fixtures.no_env p Hsc) (conj eq_refl eq_refl)).
Defined.

Lemma loop_sendstate_off_witness :
  let p :=
    {| Main.globals := Fixtures.names; Main.sendstate := "false";
       Main.currentdemand :=
         Fixtures.demand_of 5 4 (Fixtures.replay [7; 3; 3; 8; 1; 6])
           (Fixtures.main_sched []);
       Main.host := Fixtures.wire [(None, Some "dial tcp: connection refused")];
       Main.demandchangeflag := true; Main.sleepcount := 0 |} in
  Main.sendstate p <> "true" /\
  exists p',
    (Main.loop Fixtures.no_env 12 p).1 = Returned p' /\
    Main.host p' = Main.host p /\ Main.sendstate p' = Main.sendstate p.
Proof.
  intros p.
  assert (Hoff : Main.sendstate p <> "true") by discriminate.
  split; [exact Hoff |].
  exact (loop_sendstate_off Fixtures.no_env 12 p Hoff).
Defined.

Section MainAllocation.
Context {Sch I H : Type} `{!Main.Scheduler Sch, !Input I, !Main.Host H}.
Implicit Types d : Main.Demand (Sch := Sch) (I := I).
Implicit Types p : Main.Proc (Sch := Sch) (I := I) (H := H).

Lemma handle_keeps_requested (g : Main.Globals) d :
  let d' := (Main.handle g d).1.2 in
  Main.p1requested d' = Main.p1requested d /\
  Main.p2requested d' = Main.p2requested d.
Proof.
  unfold Main.handle.
  destruct (Main.StopStartNTasks (Main.sched d) _ _ _ _) as [r1 s1]. simpl.
  destruct (Main.StopStartNTasks s1 _ _ _ _) as [r2 s2]. simpl. auto.
Qed.

(** X13.  When the sample reports a change the iteration counts the
    tasks and then asks for the stored demands, priority 1 first,
    passing the two counts as the requested numbers, also when the
    count itself failed; the counts are stored as requested. *)
Theorem reconcile_changed p d1 (e1 : list Main.Event) (c1 c2 : Z)
    (err : error) (s1 : Sch) :
  Main.update (Main.currentdemand p) = (true, d1, e1) ->
  Main.CountAllTasks (Main.sched d1) = ((c1, c2, err), s1) ->
  let g := Main.globals p in
  let p' := (Main.reconcile p).1 in
  (exists r1 r2 : error,
     Main.calls_of (Main.reconcile p).2 =
       [ Main.CallCount err;
         Main.CallStopStart (Main.p1TaskName g) (Main.p1FamilyName g)
           (Main.p1demand d1) c1 r1;
         Main.CallStopStart (Main.p2TaskName g) (Main.p2FamilyName g)
           (Main.p2demand d1) c2 r2 ]) /\
  Main.p1requested (Main.currentdemand p') = c1 /\
  Main.p2requested (Main.currentdemand p') = c2 /\
  Main.p1demand (Main.currentdemand p') = Main.p1demand d1 /\
  Main.p2demand (Main.currentdemand p') = Main.p2demand d1 /\
  Main.demandchangeflag p' = true.
Proof.
  intros Hupd Hcount g p'. subst p'. unfold Main.reconcile.
  pose proof (update_calls (Main.currentdemand p)) as [Huc _].
  rewrite Hupd in *. simpl in Huc. rewrite Hcount.
  set (d2 := Main.with_requested (Main.with_sched d1 s1) c1 c2).
  change (Main.globals (Main.with_flag (Main.with_demand p d1) true)) with g.
  destruct (handle_calls g d2) as (r1 & r2 & Hhc).
  destruct (handle_keeps_demand g d2) as (Hk1 & Hk2 & _).
  destruct (handle_keeps_requested g d2) as (Hk3 & Hk4).
  destruct (Main.handle g d2) as [[herr d3] e3].
  simpl in Hhc, Hk1, Hk2, Hk3, Hk4.
  split; [| simpl; auto 10].
  exists r1, r2. cbn [snd].
  rewrite !main_calls_app, main_calls_cons, Huc, Hhc.
  now destruct err, herr.
Qed.

Lemma quiet_within_capacity (ev : Main.Event) :
  Main.quiet ev -> Main.within_capacity ev.
Proof. now destruct ev as [[]| |]. Qed.

Lemma allocated_same d d' :
  Main.p1demand d' = Main.p1demand d -> Main.p2demand d' = Main.p2demand d ->
  Main.allocated d -> Main.allocated d'.
Proof. unfold Main.allocated. now intros -> ->. Qed.

(** One reconciliation keeps the split and asks for nothing beyond the
    capacity, when the sample fails or lies within the capacity. *)
Lemma reconcile_allocated p :
  let r := GetDemand (Main.input (Main.currentdemand p)) "priority1-demand" in
  Main.allocated (Main.currentdemand p) ->
  r.1.2 <> None \/ 0 <= r.1.1 <= Main.const_maxcontainers ->
  Main.allocated (Main.currentdemand (Main.reconcile p).1) /\
  Forall Main.within_capacity (Main.reconcile p).2 /\
  Main.input (Main.currentdemand (Main.reconcile p).1) = r.2.
Proof.
  intros r Halloc Hsample. subst r.
  destruct (GetDemand (Main.input (Main.currentdemand p)) _)
    as [[v [e|]] i'] eqn:Hget; simpl in Hsample.
  - unfold Main.reconcile. rewrite (update_failed _ v e i' Hget). simpl.
    split; [exact Halloc |]. split; [repeat constructor | reflexivity].
  - destruct Hsample as [? | Hv]; [done |].
    destruct (update_stores _ v i' Hget) as (Hp1 & Hp2 & _ & Hin & _).
    rewrite int_sub_capacity in Hp2 by exact Hv.
    assert (Hd1 : Main.p1demand (Main.update (Main.currentdemand p)).1.2 = v /\
                  Main.p2demand (Main.update (Main.currentdemand p)).1.2
                  = Main.const_maxcontainers - v).
    { unfold Main.const_maxcontainers in *.
      destruct (Z.eqb_spec v (-1)); [lia |].
      destruct (Z.eqb_spec (9 - v) (-1)); [lia | done]. }
    destruct Hd1 as [Hd1 Hd2]. clear Hp1 Hp2.
    unfold Main.reconcile.
    destruct (Main.update (Main.currentdemand p)) as [[flag d1] e1] eqn:Hupd.
    simpl in Hd1, Hd2, Hin.
    assert (He1 : Forall Main.within_capacity e1).
    { revert Hupd. unfold Main.update. rewrite Hget.
      destruct (Main.set _ _ _) as [[o1 o2] dd].
      intros [= <- <- <-]. destruct (_ || _); repeat constructor. }
    assert (Hall : Main.allocated d1).
    { unfold Main.allocated, Main.const_maxcontainers in *. lia. }
    destruct flag; [| simpl; auto].
    destruct (Main.CountAllTasks (Main.sched d1)) as [[[c1 c2] err] s1].
    set (d2 := Main.with_requested (Main.with_sched d1 s1) c1 c2).
    set (g := Main.globals _).
    destruct (handle_keeps_demand g d2) as (Hk1 & Hk2 & Hk3).
    assert (Hhe : Forall Main.within_capacity (Main.handle g d2).2).
    { unfold Main.handle.
      destruct (Main.StopStartNTasks (Main.sched d2) _ _ _ _) as [r1 t1]. simpl.
      destruct (Main.StopStartNTasks t1 _ _ _ _) as [r2 t2]. simpl.
      unfold Main.allocated in Hall.
      constructor; [simpl; tauto |]. apply Forall_app. split.
      - destruct r1; repeat constructor.
      - constructor; [simpl; tauto |]. destruct r1; repeat constructor. }
    destruct (Main.handle g d2) as [[herr d3] e3]. simpl in *.
    split; [now apply (allocated_same d1) |].
    split; [| congruence].
    apply Forall_app. split; [exact He1 |].
    constructor; [done |].
    apply Forall_app. split; [destruct err; repeat constructor |].
    apply Forall_app. split; [exact Hhe | destruct herr; repeat constructor].
Qed.

(** X14.  While the demand source fails or answers within the capacity,
    the loop keeps the stored demands adding up to the capacity, each
    within it, and never asks the scheduler for a demand outside
    0 .. capacity. *)
Theorem loop_keeps_allocation (environ : Main.Environ) (n : nat) p :
  Main.allocated (Main.currentdemand p) ->
  Main.answers_within n (Main.input (Main.currentdemand p)) 0
    Main.const_maxcontainers ->
  Forall Main.within_capacity (Main.loop environ n p).2 /\
  forall p', (Main.loop environ n p).1 = Returned p' ->
             Main.allocated (Main.currentdemand p').
Proof.
  revert p. induction n as [|n IH]; intros p Halloc Hsrc.
  - simpl. split; [constructor |]. now intros p' [= <-].
  - destruct Hsrc as [Hnow Hlater].
    destruct (reconcile_allocated p Halloc Hnow) as (Ha1 & He1 & Hi1).
    simpl. unfold Main.loop_body.
    destruct (Main.reconcile p) as [p1 e1]. simpl in *.
    destruct (report_quiet environ p1) as [Hq _].
    pose proof (report_keeps environ p1) as Hkeep.
    destruct (Main.report environ p1) as [[p2|] e2]; simpl in *.
    + destruct (Hkeep p2 eq_refl) as (Hk1 & Hk2 & Hk3 & _).
      destruct (IH p2) as [IHe IHa].
      { now apply (allocated_same (Main.currentdemand p1)). }
      { now rewrite Hk3, Hi1. }
      destruct (Main.loop environ n p2) as [r e3]. simpl in *.
      split; [| exact IHa].
      apply Forall_app. split; [| exact IHe].
      apply Forall_app. split; [exact He1 |].
      eapply Forall_impl; [exact Hq | apply quiet_within_capacity].
    + split; [| discriminate].
      apply Forall_app. split; [exact He1 |].
      eapply Forall_impl; [exact Hq | apply quiet_within_capacity].
Qed.

End MainAllocation.

Lemma reconcile_changed_witness :
  let s :=
    {| Fixtures.stopstart_results := [];
       Fixtures.counted := (3, 1, Some "marathon unreachable") |} in
  let p :=
    Fixtures.proc_of (Fixtures.demand_of 5 4 (Fixtures.replay [7]) s)
      (Fixtures.wire []) in
  let d1 := Fixtures.demand_of 7 2 (Fixtures.replay []) s in
  Main.update (Main.currentdemand p)
    = (true, d1, [Main.Log (Main.P1DemandChanged 5 7)]) /\
  Main.CountAllTasks (Main.sched d1) = ((3, 1, Some "marathon unreachable"), s) /\
  (exists r1 r2 : error,
     Main.calls_of (Main.reconcile p).2 =
       [ Main.CallCount (Some "marathon unreachable");
         Main.CallStopStart "priority1-demand" "" 7 3 r1;
         Main.CallStopStart "priority2-demand" "" 2 1 r2 ]) /\
  Main.p1requested (Main.currentdemand (Main.reconcile p).1) = 3 /\
  Main.p2requested (Main.currentdemand (Main.reconcile p).1) = 1.
Proof.
  intros s p d1.
  assert (Hupd : Main.update (Main.currentdemand p)
                 = (true, d1, [Main.Log (Main.P1DemandChanged 5 7)]))
    by reflexivity.
  assert (Hcount : Main.CountAllTasks (Main.sched d1)
                   = ((3, 1, Some "marathon unreachable"), s)) by reflexivity.
  destruct (reconcile_changed p d1 _ 3 1 _ s Hupd Hcount)
    as (Hcalls & Hr1 & Hr2 & _).
  split; [exact Hupd |]. split; [exact Hcount |].
  split; [exact Hcalls |]. split; [exact Hr1 | exact Hr2].
Defined.

Lemma loop_keeps_allocation_witness :
  let p :=
    Fixtures.proc_of
      (Fixtures.demand_of 5 4 (Fixtures.replay [7; 3; 9; 0]) (Fixtures.main_sched []))
      (Fixtures.wire []) in
  Main.allocated (Main.currentdemand p) /\
  Main.answers_within 6 (Main.input (Main.currentdemand p)) 0
    Main.const_maxcontainers /\
  Forall Main.within_capacity (Main.loop Fixtures.no_env 6 p).2.
Proof.
  intros p.
  assert (Halloc : Main.allocated (Main.currentdemand p)).
  { unfold Main.allocated, Main.const_maxcontainers. simpl. lia. }
  assert (Hsrc : Main.answers_within 6 (Main.input (Main.currentdemand p)) 0
                   Main.const_maxcontainers).
  { unfold Main.const_maxcontainers. simpl.
    repeat (split; [right; lia |]). exact Logic.I. }
  split; [exact Halloc |]. split; [exact Hsrc |].
  exact (proj1 (loop_keeps_allocation Fixtures.no_env 6 p Halloc Hsrc)).
Defined.

(** * Further properties of the demand handler *)

Section HandlerSample.
Context {I : Type} `{!Input I}.
Implicit Types ts : gmap string Handler.Task.

Lemma update_stores_samples_aux (g : Main.Globals) (i i1 i2 : I) ts (v1 v2 : Z) :
  let p1 := Main.p1TaskName g in
  let p2 := Main.p2TaskName g in
  GetDemand i p1 = ((v1, None), i1) ->
  GetDemand i1 p2 = ((v2, None), i2) ->
  let ts' := (Handler.update g i ts).1.2 in
  ts' !! p2 = Some (Handler.with_Demand (Handler.index ts p2) v2) /\
  (p1 <> p2 -> ts' !! p1 = Some (Handler.with_Demand (Handler.index ts p1) v1)).
Proof.
  intros p1 p2 Hg1 Hg2 ts'. subst ts' p1 p2.
  destruct (update_cases g i ts)
    as [(? & ? & ? & Hf & _) | [(? & ? & ? & ? & ? & Hf1 & Hf2 & _)
                              | (w1 & j1 & w2 & j2 & Hf1 & Hf2 & ->)]].
  - rewrite Hg1 in Hf. simplify_eq.
  - rewrite Hg1 in Hf1. simplify_eq. rewrite Hg2 in Hf2. simplify_eq.
  - rewrite Hg1 in Hf1. simplify_eq. rewrite Hg2 in Hf2. simplify_eq.
    simpl. split; [apply lookup_insert_eq |].
    intros Hne. rewrite lookup_insert_ne by done. apply lookup_insert_eq.
Qed.

(** X15.  A sample that succeeds stores both demands in the map and
    nothing else: the entry of priority 2 holds its sample, the entry of
    priority 1 holds its sample unless both classes share a name, the
    other fields of the two tasks and all other entries stay, and a
    class missing from the map is entered with zero counts.  The change
    flag compares the samples with the demands found, zero for a missing
    class. *)
Theorem update_stores_samples (g : Main.Globals) (i i1 i2 : I) ts (v1 v2 : Z) :
  let p1 := Main.p1TaskName g in
  let p2 := Main.p2TaskName g in
  GetDemand i p1 = ((v1, None), i1) ->
  GetDemand i1 p2 = ((v2, None), i2) ->
  let r := Handler.update g i ts in
  r.1.1.1 =
    (int_ne v1 (Handler.Demand (Handler.index ts p1))
     || int_ne v2 (Handler.Demand (Handler.index ts p2)), None) /\
  r.1.1.2 = i2 /\
  r.1.2 !! p2 = Some (Handler.with_Demand (Handler.index ts p2) v2) /\
  (p1 <> p2 ->
   r.1.2 !! p1 = Some (Handler.with_Demand (Handler.index ts p1) v1)) /\
  (forall k, k <> p1 -> k <> p2 -> r.1.2 !! k = ts !! k) /\
  (ts !! p2 = None -> r.1.2 !! p2 = Some (Handler.with_Demand Handler.zeroTask v2)).
Proof.
  intros p1 p2 Hg1 Hg2 r. subst r p1 p2.
  destruct (update_cases g i ts)
    as [(? & ? & ? & Hf & _) | [(? & ? & ? & ? & ? & Hf1 & Hf2 & _)
                              | (w1 & j1 & w2 & j2 & Hf1 & Hf2 & ->)]].
  - rewrite Hg1 in Hf. simplify_eq.
  - rewrite Hg1 in Hf1. simplify_eq. rewrite Hg2 in Hf2. simplify_eq.
  - rewrite Hg1 in Hf1. simplify_eq. rewrite Hg2 in Hf2. simplify_eq.
    simpl. split; [reflexivity |]. split; [reflexivity |].
    split; [apply lookup_insert_eq |].
    split; [intros Hne; rewrite lookup_insert_ne by done; apply lookup_insert_eq |].
    split; [intros k Hk1 Hk2; now rewrite !lookup_insert_ne by done |].
    intros Hmiss. rewrite lookup_insert_eq. unfold Handler.index.
    now rewrite Hmiss.
Qed.

Lemma with_Demand_twice (t : Handler.Task) (v w : Z) :
  Handler.with_Demand (Handler.with_Demand t v) w = Handler.with_Demand t w.
Proof. reflexivity. Qed.

(** X16.  With two distinct class names, a sample that repeats the one
    before it reports no change and leaves the map exactly as it is. *)
Theorem update_repeated_samples (g : Main.Globals) (i i1 i2 i3 i4 : I) ts
    (v1 v2 : Z) :
  let p1 := Main.p1TaskName g in
  let p2 := Main.p2TaskName g in
  p1 <> p2 ->
  GetDemand i p1 = ((v1, None), i1) ->
  GetDemand i1 p2 = ((v2, None), i2) ->
  GetDemand i2 p1 = ((v1, None), i3) ->
  GetDemand i3 p2 = ((v2, None), i4) ->
  let ts' := (Handler.update g i ts).1.2 in
  (Handler.update g i2 ts').1.1.1 = (false, None) /\
  (Handler.update g i2 ts').1.2 = ts'.
Proof.
  intros p1 p2 Hne Hg1 Hg2 Hg3 Hg4 ts'.
  destruct (update_stores_samples_aux g i i1 i2 ts v1 v2 Hg1 Hg2)
    as (Hl2 & Hl1).
  fold ts' in Hl1, Hl2. specialize (Hl1 Hne). subst p1 p2.
  destruct (update_cases g i2 ts')
    as [(? & ? & ? & Hf & _) | [(? & ? & ? & ? & ? & Hf1 & Hf2 & _)
                              | (w1 & j1 & w2 & j2 & Hf1 & Hf2 & ->)]].
  - rewrite Hg3 in Hf. simplify_eq.
  - rewrite Hg3 in Hf1. simplify_eq. rewrite Hg4 in Hf2. simplify_eq.
  - rewrite Hg3 in Hf1. simplify_eq. rewrite Hg4 in Hf2. simplify_eq.
    unfold Handler.index. rewrite Hl1, Hl2. simpl.
    unfold int_ne. rewrite !Z.eqb_refl. split; [reflexivity |].
    rewrite !with_Demand_twice.
    rewrite (insert_id ts' (Main.p1TaskName g)) by exact Hl1.
    now apply insert_id.
Qed.

End HandlerSample.

Section HandlerCycle.
Context {Sch I : Type} `{!Handler.Scheduler Sch, !Input I}.
Implicit Types c : Handler.Ctx (Sch := Sch) (I := I).

Ltac visit name c :=
  simpl;
  let task := fresh "task" in
  let Hts := fresh "Hts" in
  let Hgate := fresh "Hgate" in
  let after := fresh "after" in
  let ready := fresh "ready" in
  let failure := fresh "failure" in
  let next := fresh "next" in
  destruct (Handler.ts c !! name) as [task|] eqn:Hts;
  [ destruct (Handler.scaling_ready c) eqn:Hgate; simpl;
    [ destruct (Handler.StopStartNTasks (Handler.sched c) name task)
        as [[[after ready] [failure|]] next]; simpl
    | ]
  | ].

Ltac step IH :=
  match goal with
  | |- context [Handler.range_tasks ?rest None ?c'] =>
      specialize (IH c');
      destruct (Handler.range_tasks rest None c') as [[r cf] evs];
      simpl in *
  end.

(** A loop that makes no call changes nothing and returns nil. *)
Lemma range_tasks_no_calls (order : list string) c :
  Handler.calls_of (Handler.range_tasks order None c).2 = [] ->
  (Handler.range_tasks order None c).1 = (None, c).
Proof.
  revert c. induction order as [|name rest IH]; intros c.
  - reflexivity.
  - visit name c.
    + discriminate.
    + step IH. discriminate.
    + reflexivity.
    + apply IH.
Qed.

(** The last call of a loop decides what it returns and where it leaves
    the gate. *)
Lemma range_tasks_last_call (order : list string) c
    (pre : list Handler.StopStart) (k : Handler.StopStart) :
  Handler.calls_of (Handler.range_tasks order None c).2 = pre ++ [k] ->
  (Handler.range_tasks order None c).1.1 = Handler.call_err k /\
  Handler.scaling_ready (Handler.range_tasks order None c).1.2
    = Handler.call_ready k.
Proof.
  revert c pre. induction order as [|name rest IH]; intros c pre.
  - simpl. intros Hsplit. now destruct pre.
  - visit name c.
    + intros Hsplit. destruct pre as [|a [|b pre]]; now simplify_eq/=.
    + match goal with
      | |- context [Handler.range_tasks rest None ?c'] =>
          specialize (IH c');
          pose proof (range_tasks_no_calls rest c') as Hnone;
          destruct (Handler.range_tasks rest None c') as [[r cf] evs]
      end.
      simpl in *. intros Hsplit.
      destruct pre as [|a pre]; simplify_eq/=.
      * destruct (Handler.calls_of evs); [| done].
        now specialize (Hnone eq_refl) as [= -> ->].
      * now apply (IH pre).
    + intros Hsplit. now destruct pre.
    + apply IH.
Qed.

(** A call that found the scheduler busy is the last call of the loop. *)
Lemma range_tasks_busy_last (order : list string) c
    (pre post : list Handler.StopStart) (k : Handler.StopStart) :
  Handler.calls_of (Handler.range_tasks order None c).2 = pre ++ k :: post ->
  Handler.call_ready k = false ->
  post = [].
Proof.
  revert c pre. induction order as [|name rest IH]; intros c pre.
  - simpl. intros Hsplit. now destruct pre.
  - visit name c.
    + intros Hsplit _. destruct pre as [|a [|b pre]]; now simplify_eq/=.
    + match goal with
      | |- context [Handler.range_tasks rest None ?c'] =>
          specialize (IH c');
          pose proof (range_tasks_closed_gate rest None c') as Hclosed;
          destruct (Handler.range_tasks rest None c') as [[r cf] evs]
      end.
      simpl in *. intros Hsplit Hbusy.
      destruct pre as [|a pre]; simplify_eq/=.
      * now apply Hclosed.
      * eapply IH; eauto.
    + intros Hsplit. now destruct pre.
    + apply IH.
Qed.

(** The loop returns nil exactly when none of its calls failed. *)
Lemma range_tasks_nil_iff (order : list string) c :
  (Handler.range_tasks order None c).1.1 = None <->
  Forall (fun k => Handler.call_err k = None)
    (Handler.calls_of (Handler.range_tasks order None c).2).
Proof.
  revert c. induction order as [|name rest IH]; intros c.
  - simpl. split; [constructor | done].
  - visit name c.
    + split; [done |]. intros Hall. now apply Forall_cons in Hall as [? _].
    + step IH. rewrite IH. split; [now constructor |].
      intros Hall. now apply Forall_cons in Hall as [_ ?].
    + split; [constructor | done].
    + apply IH.
Qed.

(** When every name is in the map, the gate is open and every call
    finds the scheduler ready and succeeds, every name is called. *)
Lemma range_tasks_complete (order : list string) c :
  (forall n, n ∈ order -> is_Some (Handler.ts c !! n)) ->
  Handler.scaling_ready c = true ->
  Forall (fun k => Handler.call_ready k = true /\ Handler.call_err k = None)
    (Handler.calls_of (Handler.range_tasks order None c).2) ->
  Handler.call_name <$> Handler.calls_of (Handler.range_tasks order None c).2
    = order /\
  Handler.scaling_ready (Handler.range_tasks order None c).1.2 = true.
Proof.
  revert c. induction order as [|name rest IH]; intros c Hkeys Hopen.
  - done.
  - visit name c; try congruence.
    + intros Hall. apply Forall_cons in Hall as [[_ ?] _]. done.
    + step IH. intros Hall. apply Forall_cons in Hall as [[Hr _] Hall].
      simpl in Hr. subst ready.
      destruct IH as [IHn IHg]; [| done | done |].
      { intros n Hn. rewrite lookup_insert_is_Some.
        destruct (decide (name = n)); [now left | right].
        split; [done |]. apply Hkeys. now right. }
      split; [now f_equal | exact IHg].
    + destruct (Hkeys name) as [t Ht]; [left | congruence].
Qed.

(** A name without a successful call keeps its entry. *)
Lemma range_tasks_uncommitted (order : list string) c (n : string) :
  (forall k, k ∈ Handler.calls_of (Handler.range_tasks order None c).2 ->
             Handler.call_name k = n -> Handler.call_err k <> None) ->
  Handler.ts (Handler.range_tasks order None c).1.2 !! n = Handler.ts c !! n.
Proof.
  revert c. induction order as [|name rest IH]; intros c.
  - reflexivity.
  - visit name c; try reflexivity.
    + step IH. intros Hfail. rewrite IH.
      * apply lookup_insert_ne. intros ->.
        eapply (Hfail _ ltac:(left)); reflexivity.
      * intros k Hk. apply Hfail. now right.
    + apply IH.
Qed.

(** A cycle is its sample, followed by the range loop when the sample
    reports a change. *)
Lemma handleDemandChange_cases (g : Main.Globals) (order : list string) c :
  let u := Handler.update g (Handler.input c) (Handler.ts c) in
  let c0 :=
    {| Handler.input := u.1.1.2; Handler.sched := Handler.sched c;
       Handler.scaling_ready := Handler.scaling_ready c;
       Handler.ts := u.1.2 |} in
  let cycle := Handler.handleDemandChange g order c in
  (u.1.1.1 = (true, None) /\
   cycle.1 = (Handler.range_tasks order None c0).1 /\
   Handler.calls_of cycle.2 =
     Handler.calls_of (Handler.range_tasks order None c0).2) \/
  (u.1.1.1 <> (true, None) /\
   cycle.1 = (u.1.1.1.2, c0) /\ Handler.calls_of cycle.2 = []).
Proof.
  intros u c0 cycle. subst u c0 cycle. unfold Handler.handleDemandChange.
  destruct (update_cases g (Handler.input c) (Handler.ts c))
    as [(? & ? & ? & _ & ->) | [(? & ? & ? & ? & ? & _ & _ & ->)
                               | (v1 & i1 & v2 & i2 & _ & _ & ->)]];
    simpl; [by right | by right |].
  destruct (_ || _); [| by right].
  left. split; [reflexivity |].
  match goal with
  | |- context [Handler.range_tasks order None ?c0] =>
      destruct (Handler.range_tasks order None c0) as [[r c'] evs]
  end.
  split; reflexivity.
Qed.

(** X17.  When the sample reports a change, the gate is open, and every
    call of the cycle finds the scheduler ready and succeeds, the cycle
    calls every class of the map once, in the visiting order, commits
    each task as the scheduler left it, leaves the gate open and returns
    nil. *)
Theorem cooperative_cycle_completes (g : Main.Globals) (order : list string) c :
  let u := Handler.update g (Handler.input c) (Handler.ts c) in
  let cycle := Handler.handleDemandChange g order c in
  Handler.range_order u.1.2 order ->
  Handler.scaling_ready c = true ->
  u.1.1.1 = (true, None) ->
  Forall (fun k => Handler.call_ready k = true /\ Handler.call_err k = None)
    (Handler.calls_of cycle.2) ->
  Handler.call_name <$> Handler.calls_of cycle.2 = order /\
  cycle.1.1 = None /\
  Handler.scaling_ready cycle.1.2 = true /\
  forall k, k ∈ Handler.calls_of cycle.2 ->
    Handler.ts cycle.1.2 !! Handler.call_name k = Some (Handler.call_task_after k).
Proof.
  intros u cycle [Hnodup Hkeys] Hopen Hchanged.
  destruct (handleDemandChange_cases g order c)
    as [(_ & Hc & Hcalls) | (Hno & _)]; [| done].
  fold u cycle in Hc, Hcalls. rewrite Hc, Hcalls. intros Hall.
  match type of Hc with
  | _ = (Handler.range_tasks order None ?x).1 => set (c0 := x) in *
  end.
  destruct (range_tasks_complete order c0) as [Hnames Hgate];
    [intros n Hn; now apply Hkeys | exact Hopen | exact Hall |].
  split; [exact Hnames |].
  split; [now apply range_tasks_nil_iff, (Forall_impl _ _ _ Hall); intros ? [_ ?] |].
  split; [exact Hgate |].
  intros k Hk. apply range_tasks_commit; [exact Hnodup | exact Hk |].
  rewrite Forall_forall in Hall. now apply Hall.
Qed.

(** X18.  A call that finds the scheduler busy (ready comes back false)
    is the last call of its cycle, whether or not it failed. *)
Theorem busy_call_ends_cycle (g : Main.Globals) (order : list string) c
    (pre post : list Handler.StopStart) (k : Handler.StopStart) :
  Handler.calls_of (Handler.handleDemandChange g order c).2 = pre ++ k :: post ->
  Handler.call_ready k = false ->
  post = [].
Proof.
  destruct (handleDemandChange_cases g order c)
    as [(_ & _ & ->) | (_ & _ & ->)].
  - apply range_tasks_busy_last.
  - intros Hsplit. now destruct pre.
Qed.

(** X19.  The last call of a cycle decides its outcome: the handler
    returns that call's error, nil if it succeeded, and leaves the gate
    as that call returned it. *)
Theorem last_call_decides_cycle (g : Main.Globals) (order : list string) c
    (pre : list Handler.StopStart) (k : Handler.StopStart) :
  let cycle := Handler.handleDemandChange g order c in
  Handler.calls_of cycle.2 = pre ++ [k] ->
  cycle.1.1 = Handler.call_err k /\
  Handler.scaling_ready cycle.1.2 = Handler.call_ready k.
Proof.
  intros cycle. subst cycle.
  destruct (handleDemandChange_cases g order c)
    as [(_ & -> & ->) | (_ & _ & ->)].
  - apply range_tasks_last_call.
  - intros Hsplit. now destruct pre.
Qed.

(** X20.  The handler returns nil exactly when the sample did not fail
    and no call of the cycle failed; a nil return does not tell whether
    anything was reconciled. *)
Theorem handleDemandChange_nil_iff (g : Main.Globals) (order : list string) c :
  let u := Handler.update g (Handler.input c) (Handler.ts c) in
  let cycle := Handler.handleDemandChange g order c in
  cycle.1.1 = None <->
  u.1.1.1.2 = None /\
  Forall (fun k => Handler.call_err k = None) (Handler.calls_of cycle.2).
Proof.
  intros u cycle.
  destruct (handleDemandChange_cases g order c)
    as [(Hu & Hc & Hcalls) | (_ & Hc & Hcalls)];
    fold u cycle in Hc, Hcalls; rewrite Hc, Hcalls.
  - fold u in Hu. rewrite Hu. simpl. rewrite range_tasks_nil_iff. tauto.
  - simpl. split; [intros ->; split; [done | constructor] | tauto].
Qed.

(** X21.  A class without a successful call in the cycle keeps the entry
    the sample left: what the scheduler wrote into the task of a failed
    call is dropped. *)
Theorem failed_call_not_committed (g : Main.Globals) (order : list string) c
    (n : string) :
  let u := Handler.update g (Handler.input c) (Handler.ts c) in
  let cycle := Handler.handleDemandChange g order c in
  (forall k, k ∈ Handler.calls_of cycle.2 ->
             Handler.call_name k = n -> Handler.call_err k <> None) ->
  Handler.ts cycle.1.2 !! n = u.1.2 !! n.
Proof.
  intros u cycle.
  destruct (handleDemandChange_cases g order c)
    as [(_ & Hc & Hcalls) | (_ & Hc & _)];
    fold u cycle in Hc; [fold cycle in Hcalls; rewrite Hcalls |]; rewrite Hc.
  - apply range_tasks_uncommitted.
  - reflexivity.
Qed.

End HandlerCycle.

(** ** Witnesses for the handler *)

Lemma update_stores_samples_witness :
  let i := Fixtures.replay [7; 2] in
  let r := Handler.update Fixtures.names i ∅ in
  GetDemand i "priority1-demand" = ((7, None), Fixtures.replay [2]) /\
  GetDemand (Fixtures.replay [2]) "priority2-demand" = ((2, None), Fixtures.replay []) /\
  "priority1-demand" <> "priority2-demand" /\
  (∅ : gmap string Handler.Task) !! "priority2-demand" = None /\
  r.1.1.1 = (true, None) /\
  r.1.2 !! "priority1-demand" = Some (Handler.with_Demand Handler.zeroTask 7) /\
  r.1.2 !! "priority2-demand" = Some (Handler.with_Demand Handler.zeroTask 2).
Proof.
  intros i r.
  assert (Hne : "priority1-demand" <> "priority2-demand") by discriminate.
  assert (Hmiss : (∅ : gmap string Handler.Task) !! "priority2-demand" = None)
    by apply lookup_empty.
  assert (Hg1 : GetDemand i "priority1-demand"
                = ((7, None), Fixtures.replay [2])) by reflexivity.
  assert (Hg2 : GetDemand (Fixtures.replay [2]) "priority2-demand"
                = ((2, None), Fixtures.replay [])) by reflexivity.
  destruct (update_stores_samples Fixtures.names i (Fixtures.replay [2])
              (Fixtures.replay []) ∅ 7 2 Hg1 Hg2)
    as (Hflag & _ & _ & Hp1 & _ & Hp2).
  split; [exact Hg1 |]. split; [exact Hg2 |]. split; [exact Hne |].
  split; [exact Hmiss |]. split; [exact Hflag |].
  split; [exact (Hp1 Hne) | exact (Hp2 Hmiss)].
Defined.

Lemma update_repeated_samples_witness :
  let i := Fixtures.replay [7; 2; 7; 2] in
  let ts := Fixtures.two_tasks 5 4 in
  let ts' := (Handler.update Fixtures.names i ts).1.2 in
  "priority1-demand" <> "priority2-demand" /\
  GetDemand i "priority1-demand" = ((7, None), Fixtures.replay [2; 7; 2]) /\
  GetDemand (Fixtures.replay [2; 7; 2]) "priority2-demand"
    = ((2, None), Fixtures.replay [7; 2]) /\
  GetDemand (Fixtures.replay [7; 2]) "priority1-demand"
    = ((7, None), Fixtures.replay [2]) /\
  GetDemand (Fixtures.replay [2]) "priority2-demand"
    = ((2, None), Fixtures.replay []) /\
  (Handler.update Fixtures.names (Fixtures.replay [7; 2]) ts').1.1.1 = (false, None) /\
  (Handler.update Fixtures.names (Fixtures.replay [7; 2]) ts').1.2 = ts'.
Proof.
  intros i ts ts'.
  assert (Hne : "priority1-demand" <> "priority2-demand") by discriminate.
  assert (Hg1 : GetDemand i "priority1-demand"
                = ((7, None), Fixtures.replay [2; 7; 2])) by reflexivity.
  assert (Hg2 : GetDemand (Fixtures.replay [2; 7; 2]) "priority2-demand"
                = ((2, None), Fixtures.replay [7; 2])) by reflexivity.
  assert (Hg3 : GetDemand (Fixtures.replay [7; 2]) "priority1-demand"
                = ((7, None), Fixtures.replay [2])) by reflexivity.
  assert (Hg4 : GetDemand (Fixtures.replay [2]) "priority2-demand"
                = ((2, None), Fixtures.replay [])) by reflexivity.
  split; [exact Hne |].
  split; [exact Hg1 |]. split; [exact Hg2 |]. split; [exact Hg3 |].
  split; [exact Hg4 |].
  exact (update_repeated_samples Fixtures.names i (Fixtures.replay [2; 7; 2])
           (Fixtures.replay [7; 2]) (Fixtures.replay [2]) (Fixtures.replay [])
           ts 7 2 Hne Hg1 Hg2 Hg3 Hg4).
Defined.

Lemma cooperative_cycle_completes_witness :
  let order := ["priority2-demand"; "priority1-demand"] in
  let c :=
    Fixtures.ctx (Fixtures.replay [7; 2]) {| Fixtures.results := [] |} true 5 4 in
  let u := Handler.update Fixtures.names (Handler.input c) (Handler.ts c) in
  let cycle := Handler.handleDemandChange Fixtures.names order c in
  Handler.range_order u.1.2 order /\
  Handler.scaling_ready c = true /\
  u.1.1.1 = (true, None) /\
  Forall (fun k => Handler.call_ready k = true /\ Handler.call_err k = None)
    (Handler.calls_of cycle.2) /\
  Handler.call_name <$> Handler.calls_of cycle.2 = order /\
  cycle.1.1 = None.
Proof.
  intros order c u cycle.
  assert (Horder : Handler.range_order u.1.2 order)
    by (apply range_order_by_dom; apply (bool_decide_unpack _);
        vm_compute; exact Logic.I).
  assert (Hchanged : u.1.1.1 = (true, None)) by (vm_compute; reflexivity).
  assert (Hall : Forall (fun k => Handler.call_ready k = true /\
                                  Handler.call_err k = None)
                   (Handler.calls_of cycle.2))
    by (vm_compute; repeat constructor).
  destruct (cooperative_cycle_completes Fixtures.names order c Horder eq_refl
              Hchanged Hall) as (Hnames & Hret & _).
  split; [exact Horder |]. split; [reflexivity |]. split; [exact Hchanged |].
  split; [exact Hall |]. split; [exact Hnames | exact Hret].
Defined.

Lemma busy_call_ends_cycle_witness :
  let order := ["priority1-demand"; "priority2-demand"] in
  let c :=
    Fixtures.ctx (Fixtures.replay [7; 2])
      {| Fixtures.results := [(false, None)] |} true 5 4 in
  let cycle := Handler.handleDemandChange Fixtures.names order c in
  exists k post,
    Handler.calls_of cycle.2 = [] ++ k :: post /\
    Handler.call_name k = "priority1-demand" /\
    Handler.call_ready k = false /\
    post = [].
Proof.
  intros order c cycle.
  destruct (Handler.calls_of cycle.2) as [|k post] eqn:Hcalls;
    [vm_compute in Hcalls; discriminate |].
  assert (Hk : Handler.call_name k = "priority1-demand" /\
               Handler.call_ready k = false).
  { vm_compute in Hcalls. injection Hcalls as <- _. split; reflexivity. }
  exists k, post. split; [reflexivity |]. split; [apply Hk |].
  split; [apply Hk |].
  exact (busy_call_ends_cycle Fixtures.names order c [] post k Hcalls (proj2 Hk)).
Defined.

Lemma last_call_decides_cycle_witness :
  let order := ["priority1-demand"; "priority2-demand"] in
  let c :=
    Fixtures.ctx (Fixtures.replay [7; 2])
      {| Fixtures.results := [(true, None); (false, Some "marathon unreachable")] |}
      true 5 4 in
  let cycle := Handler.handleDemandChange Fixtures.names order c in
  exists k1 k2,
    Handler.calls_of cycle.2 = [k1] ++ [k2] /\
    cycle.1.1 = Some "marathon unreachable" /\
    Handler.scaling_ready cycle.1.2 = false.
Proof.
  intros order c cycle.
  destruct (Handler.calls_of cycle.2) as [|k1 [|k2 [|k3 rest]]] eqn:Hcalls;
    try (vm_compute in Hcalls; discriminate).
  assert (Hk : Handler.call_err k2 = Some "marathon unreachable" /\
               Handler.call_ready k2 = false).
  { vm_compute in Hcalls. injection Hcalls as _ <-. split; reflexivity. }
  exists k1, k2. split; [reflexivity |].
  destruct (last_call_decides_cycle Fixtures.names order c [k1] k2 Hcalls)
    as [Hret Hgate].
  split; [now rewrite <- (proj1 Hk) | now rewrite <- (proj2 Hk)].
Defined.

Lemma failed_call_not_committed_witness :
  let order := ["priority1-demand"; "priority2-demand"] in
  let c :=
    Fixtures.ctx (Fixtures.replay [7; 2])
      {| Fixtures.results := [(true, Some "marathon unreachable")] |} true 5 4 in
  let cycle := Handler.handleDemandChange Fixtures.names order c in
  (forall k, k ∈ Handler.calls_of cycle.2 ->
             Handler.call_name k = "priority1-demand" ->
             Handler.call_err k <> None) /\
  Handler.ts cycle.1.2 !! "priority1-demand"
    = Some (Fixtures.task "priority1-demand" 7).
Proof.
  intros order c cycle.
  assert (Hfail : forall k, k ∈ Handler.calls_of cycle.2 ->
                    Handler.call_name k = "priority1-demand" ->
                    Handler.call_err k <> None).
  { intros k Hk _.
    destruct (Handler.calls_of cycle.2) as [|k1 [|k2 rest]] eqn:Hcalls;
      try (vm_compute in Hcalls; discriminate).
    apply list_elem_of_singleton in Hk. subst k1.
    vm_compute in Hcalls. injection Hcalls as <-. discriminate. }
  split; [exact Hfail |].
  refine (eq_trans
            (failed_call_not_committed Fixtures.names order c
               "priority1-demand" Hfail) _).
  vm_compute. reflexivity.
Defined.

(** ** What a cycle passes to the scheduler *)

Section HandlerCalls.
Context {Sch I : Type} `{!Handler.Scheduler Sch, !Input I}.
Implicit Types c : Handler.Ctx (Sch := Sch) (I := I).

(** Over distinct names, each call of the loop passes the entry the map
    held for that name when the loop was entered. *)
Lemma range_tasks_passes_entries (order : list string) (err : error) c
    (k : Handler.StopStart) :
  NoDup order ->
  k ∈ Handler.calls_of (Handler.range_tasks order err c).2 ->
  Handler.ts c !! Handler.call_name k = Some (Handler.call_task k).
Proof.
  revert err c. induction order as [|name rest IH]; intros err c Hnodup.
  - simpl. intros Hin. now apply not_elem_of_nil in Hin.
  - apply NoDup_cons in Hnodup as [Hfresh Hnodup].
    simpl.
    destruct (Handler.ts c !! name) as [task|] eqn:Hts; [| now apply IH].
    destruct (Handler.scaling_ready c) eqn:Hgate; simpl;
      [| intros Hin; now apply not_elem_of_nil in Hin].
    destruct (Handler.StopStartNTasks (Handler.sched c) name task)
      as [[[after ready] [failure|]] next]; simpl.
    + intros Hin. apply list_elem_of_singleton in Hin. now subst k.
    + match goal with
      | |- context [Handler.range_tasks rest ?e ?c'] =>
          specialize (IH e c' Hnodup);
          pose proof (range_tasks_call_names rest e c' k) as Hnames;
          destruct (Handler.range_tasks rest e c') as [[r cf] evs]
      end.
      simpl in *. intros Hin.
      apply elem_of_cons in Hin as [-> | Hin]; [exact Hts |].
      rewrite <- (IH Hin). symmetry. apply lookup_insert_ne.
      intros ->. apply Hfresh. now apply Hnames.
Qed.

(** X22.  Over a visiting order of the map, a cycle calls no class
    twice, and every call passes the task as the sample left it, so with
    the demand just sampled. *)
Theorem cycle_calls_sampled_tasks_once (g : Main.Globals) (order : list string) c :
  let u := Handler.update g (Handler.input c) (Handler.ts c) in
  let calls := Handler.calls_of (Handler.handleDemandChange g order c).2 in
  Handler.range_order u.1.2 order ->
  NoDup (Handler.call_name <$> calls) /\
  forall k, k ∈ calls -> u.1.2 !! Handler.call_name k = Some (Handler.call_task k).
Proof.
  intros u calls [Hnodup Hkeys]. subst calls.
  destruct (handleDemandChange_cases g order c)
    as [(_ & _ & ->) | (_ & _ & ->)].
  - split.
    + match goal with
      | |- NoDup (_ <$> Handler.calls_of (Handler.range_tasks order None ?c0).2) =>
          destruct (range_tasks_prefix order None c0) as [rest Hrest];
            [intros n Hn; now apply Hkeys |]
      end.
      rewrite Hrest in Hnodup. now apply NoDup_app in Hnodup as [? _].
    + intros k Hk.
      exact (range_tasks_passes_entries order None _ k Hnodup Hk).
  - split; [constructor |]. intros k Hk. now apply not_elem_of_nil in Hk.
Qed.

End HandlerCalls.

Lemma cycle_calls_sampled_tasks_once_witness :
  let order := ["priority2-demand"; "priority1-demand"] in
  let c :=
    Fixtures.ctx (Fixtures.replay [7; 2]) {| Fixtures.results := [] |} true 5 4 in
  let u := Handler.update Fixtures.names (Handler.input c) (Handler.ts c) in
  let calls :=
    Handler.calls_of (Handler.handleDemandChange Fixtures.names order c).2 in
  Handler.range_order u.1.2 order /\
  NoDup (Handler.call_name <$> calls) /\
  (fun k => Handler.Demand (Handler.call_task k)) <$> calls = [2; 7].
Proof.
  intros order c u calls.
  assert (Horder : Handler.range_order u.1.2 order)
    by (apply range_order_by_dom; apply (bool_decide_unpack _);
        vm_compute; exact Logic.I).
  split; [exact Horder |].
  split; [exact (proj1 (cycle_calls_sampled_tasks_once Fixtures.names order c
                          Horder)) |].
  vm_compute. reflexivity.
Defined.

(** ** The iterations before the first report *)

Section MainEarly.
Context {Sch I H : Type} `{!Main.Scheduler Sch, !Input I, !Main.Host H}.
Implicit Types p : Main.Proc (Sch := Sch) (I := I) (H := H).

Lemma report_early (environ : Main.Environ) p :
  0 <= Main.sleepcount p -> Main.sleepcount p + 1 < Main.const_sendstate_sleeps ->
  exists p',
    (Main.report environ p).1 = Returned p' /\ Main.host p' = Main.host p /\
    Main.sleepcount p' = Main.sleepcount p + 1 /\
    Main.calls_of (Main.report environ p).2 = [].
Proof.
  intros Hlo Hhi. unfold Main.report. simpl.
  rewrite int_add_small by lia. unfold Main.const_sendstate_sleeps in *.
  destruct (Z.eqb_spec (Main.sleepcount p + 1) 5); [lia |].
  eexists. repeat split.
Qed.

(** X23.  An iteration that is not the fifth since the last report
    cannot panic: from a counter of sleeps at [k], the next [n]
    iterations with [k + n < 5] all return and leave the host
    untouched. *)
Theorem loop_before_report (environ : Main.Environ) (n : nat) p :
  0 <= Main.sleepcount p ->
  Main.sleepcount p + Z.of_nat n < Main.const_sendstate_sleeps ->
  exists p',
    (Main.loop environ n p).1 = Returned p' /\
    Main.host p' = Main.host p /\
    Main.sleepcount p' = Main.sleepcount p + Z.of_nat n.
Proof.
  revert p. induction n as [|n IH]; intros p Hlo Hhi.
  - exists p. repeat split. simpl. lia.
  - simpl. unfold Main.loop_body.
    destruct (reconcile_frame p) as (Hks & _ & Hkh & _ & _).
    destruct (Main.reconcile p) as [p1 e1]. simpl in *.
    destruct (report_early environ p1) as (p2 & Hr2 & Hh2 & Hs2 & _);
      [lia | lia |].
    destruct (Main.report environ p1) as [r2 e2]. simpl in Hr2. subst r2.
    destruct (IH p2) as (p' & Hr & Hh & Hs); [lia | lia |].
    destruct (Main.loop environ n p2) as [r e3]. simpl in *.
    exists p'. split; [exact Hr |]. split; [congruence | lia].
Qed.

End MainEarly.

Lemma loop_before_report_witness :
  let p :=
    Fixtures.proc_of
      (Fixtures.demand_of 5 4 (Fixtures.replay [7; 3]) (Fixtures.main_sched []))
      (Fixtures.wire [(None, Some "dial tcp: connection refused")]) in
  0 <= Main.sleepcount p /\
  Main.sleepcount p + Z.of_nat 4 < Main.const_sendstate_sleeps /\
  exists p',
    (Main.loop Fixtures.no_env 4 p).1 = Returned p' /\
    Main.host p' = Main.host p /\
    Main.sleepcount p' = Main.sleepcount p + Z.of_nat 4.
Proof.
  intros p.
  assert (Hlo : 0 <= Main.sleepcount p) by (simpl; lia).
  assert (Hhi : Main.sleepcount p + Z.of_nat 4 < Main.const_sendstate_sleeps)
    by (simpl; unfold Main.const_sendstate_sleeps; lia).
  split; [exact Hlo |]. split; [exact Hhi |].
  exact (loop_before_report Fixtures.no_env 4 p Hlo Hhi).
Defined.
